(** * Retrieval ranking pipeline of the RAG engine

    A shallow embedding of [hybrid_search.py], [reranker.py], the retrieval
    part of [RAGEngine.query] in [rag_engine.py] and the fallback scan of
    [VectorStore.similarity_search] in [vector_store.py].

    Conventions of the embedding:
    - a Python [str] is a [string]; one [ascii] stands for one character of
      the Latin-1 repertoire, which covers the accented letters of the
      stop-word list;
    - a Python [int] is a [Z]; a score ([float]) is an exact number, a
      rational in the ranking stages and a real where a square root is taken;
    - a dict with optional keys is a record with [option] fields, [None]
      standing for an absent key;
    - lists that Python mutates in place are threaded explicitly;
    - an exception is an explicit error result. *)

From Stdlib Require Import List String Ascii Bool Arith ZArith QArith Qminmax.
From Stdlib Require Import Lia Permutation Sorted Reals Lra.
Import ListNotations.

Local Open Scope string_scope.
Local Open Scope list_scope.
Local Open Scope Z_scope.

(** ** Python built-ins used by the sources *)

Module Py.

(** [l[:k]] for a list: a negative bound counts from the end. *)
Definition slice_to {A : Type} (l : list A) (k : Z) : list A :=
  if 0 <=? k then firstn (Z.to_nat k) l
  else firstn (List.length l - Z.to_nat (- k))%nat l.

(** Truth value of an [int]. *)
Definition truthy (n : Z) : bool := negb (n =? 0).

(** [str.isspace] on one Latin-1 character. *)
Definition isspace (c : ascii) : bool :=
  let n := nat_of_ascii c in
  ((9 <=? n) && (n <=? 13) || (28 <=? n) && (n <=? 32)
   || (n =? 133) || (n =? 160))%nat.

(** [str.lower] on one Latin-1 character. *)
Definition lower_char (c : ascii) : ascii :=
  let n := nat_of_ascii c in
  if ((65 <=? n) && (n <=? 90)
      || (192 <=? n) && (n <=? 222) && negb (n =? 215))%nat
  then ascii_of_nat (n + 32) else c.

Fixpoint lower (s : string) : string :=
  match s with
  | EmptyString => EmptyString
  | String c s' => String (lower_char c) (lower s')
  end.

(** [s.replace(c, '')] for a one-character pattern [c]. *)
Fixpoint replace_del (c : ascii) (s : string) : string :=
  match s with
  | EmptyString => EmptyString
  | String a s' =>
      if Ascii.eqb a c then replace_del c s' else String a (replace_del c s')
  end.

Fixpoint lstrip (s : string) : string :=
  match s with
  | EmptyString => EmptyString
  | String c s' => if isspace c then lstrip s' else s
  end.

Fixpoint rev_string (acc s : string) : string :=
  match s with
  | EmptyString => acc
  | String c s' => rev_string (String c acc) s'
  end.

(** [s.strip()]. *)
Definition strip (s : string) : string :=
  rev_string EmptyString (lstrip (rev_string EmptyString (lstrip s))).

(** [s.split()]: maximal runs of non-blank characters.  [cur] holds the
    current run, reversed. *)
Fixpoint split_aux (cur : string) (s : string) : list string :=
  match s with
  | EmptyString =>
      match cur with
      | EmptyString => []
      | _ => [rev_string EmptyString cur]
      end
  | String c s' =>
      if isspace c then
        match cur with
        | EmptyString => split_aux EmptyString s'
        | _ => rev_string EmptyString cur :: split_aux EmptyString s'
        end
      else split_aux (String c cur) s'
  end.

Definition split (s : string) : list string := split_aux EmptyString s.

(** [s.count(sub)]: occurrences of [sub] in [s], scanned from the left
    without overlap.  [skip] characters of the last match remain. *)
Fixpoint count_aux (sub s : string) (skip : nat) : nat :=
  match s with
  | EmptyString => O
  | String _ s' =>
      match skip with
      | S k => count_aux sub s' k
      | O =>
          if String.prefix sub s
          then S (count_aux sub s' (String.length sub - 1))
          else count_aux sub s' O
      end
  end.

Definition count (s sub : string) : nat :=
  match sub with
  | EmptyString => S (String.length s)
  | _ => count_aux sub s O
  end.

(** [s[:n]] for a string and a bound [n >= 0]. *)
Definition str_slice_to (s : string) (n : nat) : string :=
  String.substring 0 n s.

End Py.

(** ** Data model *)

(** The [metadata] of a row: a JSON object, or [null] where the column is
    empty.  An absent key reads as the empty object in the code modelled
    here, which gets it with [doc.get('metadata', {})]. *)
Inductive Metadata : Type :=
| MetaDict (entries : list (string * string))
| MetaNull.

(** A result row of the vector store, with the scores the stages add.
    [None] is an absent key. *)
Record Doc : Type := mkDoc {
  content : string;
  metadata : Metadata;
  similarity : option Q;
  hybrid_score : option Q;
  keyword_score : option Q;
  rerank_score : option Q
}.

(** Calls that leave the process: the vector store and the cross-encoder. *)
Inductive Call : Type :=
| SimilaritySearch (query : string) (top_k : Z)
| Predict (pairs : list (string * string)).

(** A computation together with the calls it made, in order. *)
Definition Traced (A : Type) : Type := (A * list Call)%type.

Definition ret {A : Type} (a : A) : Traced A := (a, []).

Definition bind {A B : Type} (m : Traced A) (f : A -> Traced B) : Traced B :=
  let (a, t1) := m in
  let (b, t2) := f a in
  (b, t1 ++ t2).

Notation "x <- m ;; k" := (bind m (fun x => k))
  (at level 61, m at next level, right associativity).

Definition value {A : Type} (m : Traced A) : A := fst m.
Definition calls {A : Type} (m : Traced A) : list Call := snd m.

(** [list.sort(key=..., reverse=True)] on numeric keys: descending, and
    elements with equal keys keep their relative order. *)
Section Sort.
Context {A : Type}.
Variable key : A -> Q.

Fixpoint insert_desc (x : A) (l : list A) : list A :=
  match l with
  | [] => [x]
  | y :: l' =>
      if Qle_bool (key y) (key x) then x :: l else y :: insert_desc x l'
  end.

Definition sort_desc (l : list A) : list A := fold_right insert_desc [] l.
End Sort.

(** [VectorStore]: the one operation the ranking stages call. *)
Record VectorStore : Type := mkVectorStore {
  similarity_search : string -> Z -> list Doc
}.

(** ** [hybrid_search.py] *)

Module HybridSearch.

Definition a_grave : string := String (ascii_of_nat 224) EmptyString.
Definition e_circ : string := String (ascii_of_nat 234) EmptyString.

Definition stopwords : list string :=
  [ "le"; "la"; "les"; "un"; "une"; "des"; "de"; "du"; a_grave; "au"; "aux";
    "et"; "ou"; "mais"; "donc"; "car"; "ni"; "que"; "qui"; "quoi"; "dont";
    "ce"; "cet"; "cette"; "ces"; "mon"; "ton"; "son"; "ma"; "ta"; "sa";
    "mes"; "tes"; "ses"; "notre"; "votre"; "leur"; "nos"; "vos"; "leurs";
    "je"; "tu"; "il"; "elle"; "on"; "nous"; "vous"; "ils"; "elles";
    "est"; "sont"; "suis"; "sommes"; (e_circ ++ "tes")%string; (e_circ ++ "tre")%string;
    "avoir"; "a"; "as";
    "qu"; "c"; "d"; "l"; "s"; "n"; "m"; "t"; "y";
    "que"; "quoi"; "quel"; "quelle"; "quels"; "quelles";
    "sur"; "sous"; "dans"; "par"; "pour"; "avec"; "sans" ].

Definition is_stopword (w : string) : bool :=
  existsb (String.eqb w) stopwords.

(** [extract_keywords(query)]. *)
Definition extract_keywords (query : string) : list string :=
  let words :=
    Py.split (Py.replace_del "!" (Py.replace_del "?" (Py.lower query))) in
  map Py.strip
    (filter (fun w =>
               negb (String.eqb (Py.strip w) EmptyString)
               && negb (is_stopword (Py.strip w))
               && (2 <? String.length w)%nat)
            words).

(** The loop of [calculate_keyword_score]: [total_matches] after the
    keywords have been visited. *)
Definition total_matches (text_lower : string) (keywords : list string) : Z :=
  fold_left
    (fun total keyword =>
       total + Z.of_nat (Py.count text_lower (Py.lower keyword)))
    keywords 0.

(** [calculate_keyword_score(text, keywords)]. *)
Definition calculate_keyword_score (text : string) (keywords : list string)
  : Q :=
  match keywords with
  | [] => 0%Q
  | _ =>
      let text_lower := Py.lower text in
      Qmin (inject_Z (total_matches text_lower keywords)
            / inject_Z (Z.of_nat (List.length keywords)))
           1%Q
  end.

(** [doc.get('similarity', 0.5)]. *)
Definition semantic_score (doc : Doc) : Q :=
  match similarity doc with
  | Some s => s
  | None => 5 # 10
  end.

(** One turn of the scoring loop: the document with [hybrid_score] and
    [keyword_score] set. *)
Definition score_doc (keywords : list string) (keyword_boost : Q) (doc : Doc)
  : Doc :=
  let semantic_score := semantic_score doc in
  let keyword_score := calculate_keyword_score (content doc) keywords in
  let combined_score :=
    ((1 - keyword_boost) * semantic_score + keyword_boost * keyword_score)%Q in
  {| content := content doc;
     metadata := metadata doc;
     similarity := similarity doc;
     hybrid_score := Some combined_score;
     keyword_score := Some keyword_score;
     rerank_score := rerank_score doc |}.

(** The sort key [x['hybrid_score']]; the key is present on every
    document the loop appended. *)
Definition hybrid_key (doc : Doc) : Q :=
  match hybrid_score doc with
  | Some h => h
  | None => 0
  end.

(** Steps 3 and 4: score every candidate, then sort. *)
Definition scored_results (keywords : list string) (keyword_boost : Q)
  (semantic_results : list Doc) : list Doc :=
  sort_desc hybrid_key (map (score_doc keywords keyword_boost) semantic_results).

(** [top_k = int(top_k) if top_k else 20]. *)
Definition effective_top_k (top_k : Z) : Z :=
  if Py.truthy top_k then top_k else 20.

(** [hybrid_search(vector_store, query, top_k, keyword_boost)]. *)
Definition hybrid_search (vector_store : VectorStore) (query : string)
  (top_k : Z) (keyword_boost : Q) : Traced (list Doc) :=
  let top_k := effective_top_k top_k in
  semantic_results <-
    (similarity_search vector_store query (top_k * 2),
     [SimilaritySearch query (top_k * 2)]) ;;
  let keywords := extract_keywords query in
  ret (Py.slice_to (scored_results keywords keyword_boost semantic_results)
         top_k).

End HybridSearch.

(** ** [reranker.py] *)

Module Reranker.

(** The cross-encoder: [predict] returns one score per pair, or raises
    ([None]). *)
Definition CrossEncoder : Type := list (string * string) -> option (list Q).

(** [ReRanker]: [model] is [None] when the cross-encoder could not be
    loaded. *)
Record ReRanker : Type := mkReRanker {
  model : option CrossEncoder
}.

Definition set_rerank_score (doc : Doc) (score : Q) : Doc :=
  {| content := content doc;
     metadata := metadata doc;
     similarity := similarity doc;
     hybrid_score := hybrid_score doc;
     keyword_score := keyword_score doc;
     rerank_score := Some score |}.

(** [for doc, score in zip(documents, scores): doc['rerank_score'] = ...]:
    the list after the loop. *)
Fixpoint set_scores (documents : list Doc) (scores : list Q) : list Doc :=
  match documents, scores with
  | doc :: documents', score :: scores' =>
      set_rerank_score doc score :: set_scores documents' scores'
  | _, _ => documents
  end.

Definition has_rerank_score (doc : Doc) : bool :=
  match rerank_score doc with
  | Some _ => true
  | None => false
  end.

Definition rerank_key (doc : Doc) : Q :=
  match rerank_score doc with
  | Some r => r
  | None => 0
  end.

(** The logging of the first three results, after the sort:
    [doc.get('metadata', {}).get('file_name', 'Unknown')] raises on a row
    whose metadata is not a dict; the score and the preview of the content
    are formatted without failure. *)
Definition log_raises (documents : list Doc) : bool :=
  existsb
    (fun doc =>
       match metadata doc with
       | MetaDict _ => false
       | MetaNull => true
       end)
    (Py.slice_to documents 3).

(** The [try] block of [rerank].  The first component is the list
    [documents] as the block leaves it, the second is the value returned,
    or [None] when an exception was raised: by [predict], by the sort key on
    a document that got no [rerank_score] ([zip] stops at the shorter of the
    two lists), or by the logging that follows the sort.  The sort computes
    every key before it moves an element, so a failing key leaves the list
    in its order; the logging runs on the list already sorted in place. *)
Definition rerank_try (predict : CrossEncoder) (query : string)
  (documents : list Doc) (top_k : Z)
  : Traced (list Doc * option (list Doc)) :=
  let pairs :=
    map (fun doc => (query, Py.str_slice_to (content doc) 512)) documents in
  (match predict pairs with
   | None => (documents, None)
   | Some scores =>
       let documents := set_scores documents scores in
       if forallb has_rerank_score documents then
         let documents := sort_desc rerank_key documents in
         if log_raises documents then (documents, None)
         else (documents, Some (Py.slice_to documents top_k))
       else (documents, None)
   end,
   [Predict pairs]).

(** [ReRanker.rerank(query, documents, top_k)], with the object after the
    call. *)
Definition rerank (self : ReRanker) (query : string) (documents : list Doc)
  (top_k : Z) : Traced (ReRanker * list Doc) :=
  match model self, documents with
  | None, _ | _, [] => ret (self, Py.slice_to documents top_k)
  | Some predict, _ =>
      r <- rerank_try predict query documents top_k ;;
      match r with
      | (_, Some result) => ret (self, result)
      | (documents, None) => ret (self, Py.slice_to documents top_k)
      end
  end.

End Reranker.

(** ** [rag_engine.py] *)

Module RagEngine.
Import HybridSearch Reranker.

Record RAGEngine : Type := mkRAGEngine {
  vector_store : VectorStore;
  reranker : ReRanker
}.

(** The retrieval part of [RAGEngine.query(question, top_k)]: the documents
    that ground the answer and are listed as its sources, with the engine
    after the call. *)
Definition rank (self : RAGEngine) (question : string) (top_k : Z)
  : Traced (RAGEngine * list Doc) :=
  relevant_docs <-
    hybrid_search (vector_store self) question (top_k * 2) (6 # 10) ;;
  match relevant_docs with
  | [] => ret (self, [])
  | _ =>
      match model (reranker self) with
      | Some _ =>
          r <- rerank (reranker self) question relevant_docs top_k ;;
          let (reranker', relevant_docs) := r in
          ret ({| vector_store := vector_store self;
                  reranker := reranker' |}, relevant_docs)
      | None => ret (self, relevant_docs)
      end
  end.

Definition ranked (self : RAGEngine) (question : string) (top_k : Z)
  : list Doc :=
  snd (value (rank self question top_k)).

End RagEngine.


(** ** [vector_store.py]: the fallback scan of [similarity_search] *)

Module VectorStoreFallback.

(** A value of a row as the database client decodes it.  A vector column
    may come back as a list or as its JSON text.  Numbers are idealised as
    reals: what is stated about this module below holds whatever the
    rounding of the floats that the code computes with. *)
#[warnings="-register-all"] Inductive Value : Type :=
| VNone
| VNum (r : R)
| VStr (s : string)
| VList (l : list Value).

(** A row of the [documents] table; an absent [embedding] is [VNone]. *)
Record Row : Type := mkRow {
  row_id : Z;
  row_content : string;
  row_metadata : list (string * string);
  embedding : Value
}.

(** An entry of [results]. *)
Record Hit : Type := mkHit {
  hit_id : Z;
  hit_content : string;
  hit_metadata : list (string * string);
  hit_similarity : R
}.

(** Truth value of [doc.get('embedding')]. *)
Definition truthy (v : Value) : bool :=
  match v with
  | VNone => false
  | VNum r => if Req_dec_T r 0%R then false else true
  | VStr s => negb (String.eqb s EmptyString)
  | VList l => match l with [] => false | _ => true end
  end.

Definition is_list (v : Value) : bool :=
  match v with
  | VList _ => true
  | _ => false
  end.

(** [sum(...)] over a generator whose items may raise: the items are
    added from the left, starting at 0, up to the first that raises. *)
Fixpoint sum_from (acc : R) (items : list (option R)) : option R :=
  match items with
  | [] => Some acc
  | Some x :: items' => sum_from (acc + x)%R items'
  | None :: _ => None
  end.

Section Parsers.
(** [json.loads] and [float] on text; [None] when they raise. *)
Variable json_loads : string -> option Value.
Variable float_of_str : string -> option R.

(** [float(a)]. *)
Definition to_float (a : Value) : option R :=
  match a with
  | VNum r => Some r
  | VStr s => float_of_str s
  | VNone | VList _ => None
  end.

(** [if isinstance(vec, str): vec = json.loads(vec)]. *)
Definition decode (vec : Value) : option Value :=
  match vec with
  | VStr s => json_loads s
  | _ => Some vec
  end.

Definition product (ab : Value * Value) : option R :=
  match to_float (fst ab), to_float (snd ab) with
  | Some a, Some b => Some (a * b)%R
  | _, _ => None
  end.

Definition square (a : Value) : option R := product (a, a).

(** [_cosine_similarity(vec1, vec2)]; [None] when an exception leaves
    the function. *)
Definition cosine_similarity (vec1 vec2 : Value) : option R :=
  match decode vec1 with
  | None => None
  | Some vec1 =>
      match decode vec2 with
      | None => None
      | Some vec2 =>
          match vec1, vec2 with
          | VList l1, VList l2 =>
              match sum_from 0 (map product (combine l1 l2)) with
              | None => None
              | Some dot_product =>
                  match sum_from 0 (map square l1) with
                  | None => None
                  | Some sq1 =>
                      match sum_from 0 (map square l2) with
                      | None => None
                      | Some sq2 =>
                          let magnitude1 := sqrt sq1 in
                          let magnitude2 := sqrt sq2 in
                          if Req_dec_T magnitude1 0 then Some 0%R
                          else if Req_dec_T magnitude2 0 then Some 0%R
                          else Some (dot_product
                                     / (magnitude1 * magnitude2))%R
                      end
                  end
              end
          | _, _ => Some 0%R
          end
      end
  end.

(** The loop over [all_docs.data]: [results] when the loop ends, [None]
    when a similarity computation raised. *)
Fixpoint scan (query_embedding : Value) (rows : list Row)
  : option (list Hit) :=
  match rows with
  | [] => Some []
  | doc :: rows' =>
      if truthy (embedding doc) then
        match cosine_similarity query_embedding (embedding doc) with
        | None => None
        | Some similarity =>
            match scan query_embedding rows' with
            | None => None
            | Some results =>
                Some (mkHit (row_id doc) (row_content doc)
                        (row_metadata doc) similarity :: results)
            end
        end
      else scan query_embedding rows'
  end.

Fixpoint insert_hit (x : Hit) (l : list Hit) : list Hit :=
  match l with
  | [] => [x]
  | y :: l' =>
      if Rle_dec (hit_similarity y) (hit_similarity x) then x :: l
      else y :: insert_hit x l'
  end.

(** [results.sort(key=lambda x: x['similarity'], reverse=True)]. *)
Definition sort_hits (l : list Hit) : list Hit :=
  fold_right insert_hit [] l.

(** The [except] branch of [similarity_search]: [table] is the
    [documents] table, of which the first 100 rows are fetched. *)
Definition fallback_search (query_embedding : Value) (table : list Row)
  (top_k : Z) : option (list Hit) :=
  let all_docs := firstn 100 table in
  match all_docs with
  | [] => Some []
  | _ =>
      match scan query_embedding all_docs with
      | None => None
      | Some results => Some (Py.slice_to (sort_hits results) top_k)
      end
  end.
End Parsers.

(** Parsers that reject every text. *)
Definition no_json : string -> option Value := fun _ => None.
Definition no_float : string -> option R := fun _ => None.

Definition row_of (i : Z) (v : Value) : Row := mkRow i "text" [] v.

(** A parser that knows the JSON text of the null value only. *)
Definition null_only : string -> option Value :=
  fun s => if String.eqb s "null" then Some VNone else None.

End VectorStoreFallback.

(** ** Statements of the specification *)

Module Spec.
Import HybridSearch Reranker RagEngine.

(** A ranking of [l] by [key] alone, ties broken by the order of arrival:
    the same elements, in non-increasing key order, and for every key
    value the elements carrying it appear in the order they have in [l]. *)
Definition stable_ranking {A : Type} (key : A -> Q) (l r : list A) : Prop :=
  Permutation l r
  /\ StronglySorted (fun a b => (key b <= key a)%Q) r
  /\ forall v : Q,
      filter (fun a => Qeq_bool (key a) v) r
      = filter (fun a => Qeq_bool (key a) v) l.

(** Summed occurrence counts of the keywords, one term per list entry. *)
Definition summed_counts (text : string) (keywords : list string) : Z :=
  fold_right Z.add 0
    (map (fun keyword => Z.of_nat (Py.count (Py.lower text) (Py.lower keyword)))
       keywords).

(** A trace that holds nothing but retrieval calls. *)
Definition only_retrieval (t : list Call) : Prop :=
  forall c, In c t -> exists q n, c = SimilaritySearch q n.

Definition is_similarity_search (c : Call) : bool :=
  match c with
  | SimilaritySearch _ _ => true
  | Predict _ => false
  end.

(** The candidate without the reranker's annotation. *)
Definition clear_rerank_score (doc : Doc) : Doc :=
  {| content := content doc;
     metadata := metadata doc;
     similarity := similarity doc;
     hybrid_score := hybrid_score doc;
     keyword_score := keyword_score doc;
     rerank_score := None |}.

(** The pairs handed to the cross-encoder for [documents]. *)
Definition pairs_of (query : string) (documents : list Doc)
  : list (string * string) :=
  map (fun doc => (query, Py.str_slice_to (content doc) 512)) documents.

(** The [try] block of [rerank] raised. *)
Definition rerank_raised (predict : CrossEncoder) (query : string)
  (documents : list Doc) (top_k : Z) : Prop :=
  snd (value (rerank_try predict query documents top_k)) = None.

(** What [rerank] returns when the model is loaded and there are documents:
    the value of the [try] block, or the fallback on the list as the block
    left it. *)
Definition rerank_result (predict : CrossEncoder) (query : string)
  (documents : list Doc) (top_k : Z) : list Doc :=
  match value (rerank_try predict query documents top_k) with
  | (_, Some result) => result
  | (documents', None) => Py.slice_to documents' top_k
  end.

(** The output of the hybrid stage inside [RAGEngine.query]. *)
Definition hybrid_of (self : RAGEngine) (question : string) (top_k : Z)
  : list Doc :=
  value (hybrid_search (vector_store self) question (top_k * 2) (6 # 10)).

(** The cosine of two numeric vectors as the fallback scan computes it: the
    dot product runs over the common prefix, each norm over its own vector. *)
Definition dot (l1 l2 : list R) : R :=
  fold_right Rplus 0%R (map (fun ab => (fst ab * snd ab)%R) (combine l1 l2)).

Definition norm (l : list R) : R := sqrt (dot l l).

Definition cosine (l1 l2 : list R) : R :=
  if Req_dec_T (norm l1) 0 then 0%R
  else if Req_dec_T (norm l2) 0 then 0%R
  else (dot l1 l2 / (norm l1 * norm l2))%R.

(** A well-formed embedding: a list of numbers. *)
Definition vector (l : list R) : VectorStoreFallback.Value :=
  VectorStoreFallback.VList (map VectorStoreFallback.VNum l).

Definition hit_of (doc : VectorStoreFallback.Row) (similarity : R)
  : VectorStoreFallback.Hit :=
  VectorStoreFallback.mkHit (VectorStoreFallback.row_id doc)
    (VectorStoreFallback.row_content doc)
    (VectorStoreFallback.row_metadata doc) similarity.

End Spec.

(** ** Sample data *)

Module Sample.
Import HybridSearch Reranker RagEngine.

Definition doc (text : string) (sim : Q) : Doc :=
  mkDoc text (MetaDict []) (Some sim) None None None.

Definition corpus : list Doc :=
  [ doc "le chat" (9 # 10); doc "budget 2023" (1 # 10);
    doc "rapport" (5 # 10) ].

(** A store that answers every query with the first [n] rows. *)
Definition store : VectorStore :=
  mkVectorStore (fun _ n => Py.slice_to corpus n).

(** A cross-encoder that scores a pair by the length of its text. *)
Definition by_length : CrossEncoder :=
  fun pairs =>
    Some (map (fun p => inject_Z (Z.of_nat (String.length (snd p)))) pairs).

(** A cross-encoder whose inference fails. *)
Definition failing : CrossEncoder := fun _ => None.

(** A row that came back without a similarity, and a store that returns
    it. *)
Definition unscored : Doc :=
  mkDoc "budget" (MetaDict []) None None None None.

Definition unscored_store : VectorStore :=
  mkVectorStore (fun _ _ => [unscored]).

(** A store one of whose rows has no metadata. *)
Definition corpus_with_null : list Doc :=
  [ doc "le chat" (9 # 10); doc "budget 2023" (1 # 10);
    mkDoc "rapport" MetaNull (Some (5 # 10)) None None None ].

Definition store_with_null : VectorStore :=
  mkVectorStore (fun _ n => Py.slice_to corpus_with_null n).

Definition unavailable : RAGEngine := mkRAGEngine store (mkReRanker None).
Definition ready : RAGEngine :=
  mkRAGEngine store (mkReRanker (Some by_length)).
Definition ready_failing : RAGEngine :=
  mkRAGEngine store (mkReRanker (Some failing)).
Definition ready_with_null : RAGEngine :=
  mkRAGEngine store_with_null (mkReRanker (Some by_length)).

End Sample.

(** ** Notions used to state further properties *)

Module Notions.
Import HybridSearch.

(** Every character of [s] satisfies [p]. *)
Fixpoint all_chars (p : ascii -> bool) (s : string) : bool :=
  match s with
  | EmptyString => true
  | String c s' => p c && all_chars p s'
  end.

Definition not_blank (c : ascii) : bool := negb (Py.isspace c).

Definition is_not (c : ascii) (a : ascii) : bool := negb (Ascii.eqb a c).

Definition is_lower (c : ascii) : bool := Ascii.eqb (Py.lower_char c) c.

(** [sub] occurs in [s] as a run of consecutive characters. *)
Definition occurs_in (sub s : string) : Prop :=
  exists pre post : string, s = (pre ++ sub ++ post)%string.

(** The sort key [x['keyword_score']] of a lexical-only ranking. *)
Definition keyword_key (doc : Doc) : Q :=
  match keyword_score doc with
  | Some k => k
  | None => 0
  end.

End Notions.

(** ** [vector_store.py]: [add_documents] *)

Module VectorStoreIndexing.

(** A document handed to [add_documents]; [None] is an absent key, and for
    [doc_content] also a [None] value. *)
Record InputDoc : Type := mkInputDoc {
  doc_content : option string;
  doc_metadata : option (list (string * string))
}.

Section Indexing.
(** The type of an embedding vector. *)
Context {Embedding : Type}.

(** A record sent to the [documents] table. *)
Record Record_ : Type := mkRecord {
  rec_content : string;
  rec_metadata : list (string * string);
  rec_embedding : Embedding
}.

(** Calls that leave the process: the embedding service and the table. *)
Inductive Event : Type :=
| CreateEmbedding (text : string)
| Insert (batch : list Record_).

Inductive Outcome : Type :=
| Returned (value : bool)
| Raised.

(** How [add_documents] ends: its outcome, the counters it logs, and the
    calls it made, in order. *)
Record Run : Type := mkRun {
  outcome : Outcome;
  total_inserted : Z;
  skipped : Z;
  events : list Event
}.

Definition emit (e : Event) (r : Run) : Run :=
  mkRun (outcome r) (total_inserted r) (skipped r) (e :: events r).

(** [create_embedding] and the insertion of one batch; [None] and [false]
    when they raise. *)
Variable create_embedding : string -> option Embedding.
Variable insert : list Record_ -> bool.

Definition batch_size : nat := 50.

(** [not doc.get('content') or len(doc['content'].strip()) == 0]. *)
Definition is_blank (doc : InputDoc) : bool :=
  match doc_content doc with
  | None => true
  | Some text =>
      String.eqb text EmptyString
      || (String.length (Py.strip text) =? 0)%nat
  end.

(** The loop over [documents] and the insertion of the remaining batch,
    from the state [current_batch], [total_inserted], [skipped]. *)
Fixpoint add_loop (documents : list InputDoc) (current_batch : list Record_)
  (total_inserted skipped : Z) : Run :=
  match documents with
  | [] =>
      match current_batch with
      | [] => mkRun (Returned true) total_inserted skipped []
      | _ =>
          emit (Insert current_batch)
            (if insert current_batch
             then mkRun (Returned true)
                    (total_inserted + Z.of_nat (List.length current_batch))
                    skipped []
             else mkRun (Returned false) total_inserted skipped [])
      end
  | doc :: documents' =>
      if is_blank doc
      then add_loop documents' current_batch total_inserted (skipped + 1)
      else
        match doc_content doc with
        | None =>
            (* not reached: a document without content is blank *)
            mkRun Raised total_inserted skipped []
        | Some text =>
            emit (CreateEmbedding text)
              match create_embedding text with
              | None => mkRun Raised total_inserted skipped []
              | Some embedding =>
                  match doc_metadata doc with
                  | None => mkRun Raised total_inserted skipped []
                  | Some metadata =>
                      let current_batch :=
                        current_batch ++ [mkRecord text metadata embedding] in
                      if (batch_size <=? List.length current_batch)%nat
                      then
                        emit (Insert current_batch)
                          (if insert current_batch
                           then add_loop documents' []
                                  (total_inserted
                                   + Z.of_nat (List.length current_batch))
                                  skipped
                           else mkRun (Returned false) total_inserted
                                  skipped [])
                      else add_loop documents' current_batch total_inserted
                             skipped
                  end
              end
        end
  end.

(** [add_documents(documents)], without a progress callback. *)
Definition add_documents (documents : list InputDoc) : Run :=
  match documents with
  | [] => mkRun (Returned false) 0 0 []
  | _ => add_loop documents [] 0 0
  end.

(** The batches sent to the table, in order. *)
Fixpoint batches (events : list Event) : list (list Record_) :=
  match events with
  | [] => []
  | Insert batch :: events' => batch :: batches events'
  | CreateEmbedding _ :: events' => batches events'
  end.

(** The texts sent to the embedding service, in order. *)
Fixpoint embedded (events : list Event) : list string :=
  match events with
  | [] => []
  | CreateEmbedding text :: events' => text :: embedded events'
  | Insert _ :: events' => embedded events'
  end.

(** The record made from a document. *)
Definition record_of (doc : InputDoc) (record : Record_) : Prop :=
  doc_content doc = Some (rec_content record)
  /\ doc_metadata doc = Some (rec_metadata record)
  /\ create_embedding (rec_content record) = Some (rec_embedding record).

Definition not_blank (doc : InputDoc) : bool := negb (is_blank doc).

End Indexing.

Arguments Record_ : clear implicits.
Arguments Event : clear implicits.
Arguments Run : clear implicits.

End VectorStoreIndexing.

(** ** The definitions on small inputs *)

Section Examples.
Import HybridSearch Reranker RagEngine.

Example extract_keywords_question :
  extract_keywords "Quel est le budget du rapport 2023 ?"
  = ["budget"; "rapport"; "2023"].
Proof. reflexivity. Qed.

Example extract_keywords_empty : extract_keywords "" = [].
Proof. reflexivity. Qed.

Example count_without_overlap : Py.count "aaaa" "aa" = 2%nat.
Proof. reflexivity. Qed.

Example count_inside_words : Py.count "rapports et rapporteur" "rapport" = 2%nat.
Proof. reflexivity. Qed.

Example keyword_score_half :
  (calculate_keyword_score "Le Budget" ["budget"; "rapport"] == 1 # 2)%Q.
Proof. reflexivity. Qed.

Example slice_to_negative : Py.slice_to [1; 2; 3; 4] (-1) = [1; 2; 3].
Proof. reflexivity. Qed.

Example hybrid_order :
  map content (value (hybrid_search Sample.store "budget" 3 (6 # 10)))
  = ["budget 2023"; "le chat"; "rapport"].
Proof. reflexivity. Qed.

Example reranked_by_length :
  map content (ranked Sample.ready "budget" 2) = ["budget 2023"; "le chat"].
Proof. reflexivity. Qed.

Example reranked_calls :
  calls (rank Sample.ready "budget" 1)
  = [SimilaritySearch "budget" 4;
     Predict [("budget", "budget 2023"); ("budget", "le chat")]].
Proof. reflexivity. Qed.
End Examples.

(** ** Lemmas on the built-ins *)

Section SliceFacts.
Context {A : Type}.

Lemma slice_to_length_le (l : list A) (k : Z) :
  0 <= k -> Z.of_nat (List.length (Py.slice_to l k)) <= k.
Proof.
  intros Hk. unfold Py.slice_to.
  destruct (Z.leb_spec 0 k) as [_ | Hneg]; [ | lia ].
  rewrite length_firstn. lia.
Qed.

Lemma slice_to_zero (l : list A) : Py.slice_to l 0 = [].
Proof. reflexivity. Qed.

Lemma slice_to_nil (k : Z) : Py.slice_to (@nil A) k = [].
Proof.
  unfold Py.slice_to. destruct (0 <=? k); apply firstn_nil.
Qed.

Lemma in_firstn (x : A) (n : nat) (l : list A) :
  In x (firstn n l) -> In x l.
Proof.
  intros H. rewrite <- (firstn_skipn n l). apply in_or_app. now left.
Qed.

Lemma in_slice_to (x : A) (l : list A) (k : Z) :
  In x (Py.slice_to l k) -> In x l.
Proof.
  unfold Py.slice_to. destruct (0 <=? k); apply in_firstn.
Qed.

Lemma slice_to_map {B : Type} (f : A -> B) (l : list A) (k : Z) :
  map f (Py.slice_to l k) = Py.slice_to (map f l) k.
Proof.
  unfold Py.slice_to. rewrite length_map.
  destruct (0 <=? k); symmetry; apply firstn_map.
Qed.
End SliceFacts.

Section SortFacts.
Context {A : Type}.
Variable key : A -> Q.

Lemma insert_desc_perm (x : A) (l : list A) :
  Permutation (x :: l) (insert_desc key x l).
Proof.
  induction l as [ | y l IH ]; simpl; [ reflexivity | ].
  destruct (Qle_bool (key y) (key x)); [ reflexivity | ].
  rewrite perm_swap. now constructor.
Qed.

Lemma sort_desc_perm (l : list A) : Permutation l (sort_desc key l).
Proof.
  induction l as [ | x l IH ]; simpl; [ constructor | ].
  rewrite <- insert_desc_perm. now constructor.
Qed.

Lemma sort_desc_length (l : list A) :
  List.length (sort_desc key l) = List.length l.
Proof. symmetry. apply Permutation_length, sort_desc_perm. Qed.

Lemma insert_desc_sorted (x : A) (l : list A) :
  StronglySorted (fun a b => (key b <= key a)%Q) l ->
  StronglySorted (fun a b => (key b <= key a)%Q) (insert_desc key x l).
Proof.
  induction 1 as [ | y l Hs IH Hy ]; simpl.
  - repeat constructor.
  - destruct (Qle_bool (key y) (key x)) eqn:E.
    + apply Qle_bool_iff in E.
      constructor; [ now constructor | ].
      constructor; [ exact E | ].
      eapply Forall_impl; [ | exact Hy ].
      intros a Ha. simpl in Ha. eapply Qle_trans; eassumption.
    + constructor; [ exact IH | ].
      assert (Hxy : (key x <= key y)%Q).
      { apply Qlt_le_weak, Qnot_le_lt. intros C.
        apply Qle_bool_iff in C. congruence. }
      eapply Permutation_Forall; [ apply insert_desc_perm | ].
      now constructor.
Qed.

Lemma sort_desc_sorted (l : list A) :
  StronglySorted (fun a b => (key b <= key a)%Q) (sort_desc key l).
Proof.
  induction l as [ | x l IH ]; simpl;
    [ constructor | now apply insert_desc_sorted ].
Qed.

Lemma insert_desc_filter (v : Q) (x : A) (l : list A) :
  filter (fun a => Qeq_bool (key a) v) (insert_desc key x l)
  = filter (fun a => Qeq_bool (key a) v) (x :: l).
Proof.
  induction l as [ | y l IH ]; [ reflexivity | ].
  simpl insert_desc.
  destruct (Qle_bool (key y) (key x)) eqn:E; [ reflexivity | ].
  cbn [filter] in *. rewrite IH.
  destruct (Qeq_bool (key x) v) eqn:Ex; [ | reflexivity ].
  destruct (Qeq_bool (key y) v) eqn:Ey; [ | reflexivity ].
  apply Qeq_bool_iff in Ex, Ey.
  assert (C : Qle_bool (key y) (key x) = true).
  { apply Qle_bool_iff. rewrite Ex, Ey. apply Qle_refl. }
  congruence.
Qed.

Lemma sort_desc_stable (v : Q) (l : list A) :
  filter (fun a => Qeq_bool (key a) v) (sort_desc key l)
  = filter (fun a => Qeq_bool (key a) v) l.
Proof.
  induction l as [ | x l IH ]; [ reflexivity | ].
  simpl sort_desc. rewrite insert_desc_filter.
  cbn [filter]. now rewrite IH.
Qed.

Lemma sort_desc_stable_ranking (l : list A) :
  Spec.stable_ranking key l (sort_desc key l).
Proof.
  repeat split.
  - apply sort_desc_perm.
  - apply sort_desc_sorted.
  - intros v. apply sort_desc_stable.
Qed.
End SortFacts.

Section SortExt.
Context {A : Type}.
Variables key1 key2 : A -> Q.

Lemma insert_desc_ext (x : A) (l : list A) :
  (key1 x == key2 x)%Q ->
  Forall (fun a => (key1 a == key2 a)%Q) l ->
  insert_desc key1 x l = insert_desc key2 x l.
Proof.
  intros Hx Hl. induction Hl as [ | y l Hy Hl IH ]; [ reflexivity | ].
  simpl.
  assert (E : Qle_bool (key1 y) (key1 x) = Qle_bool (key2 y) (key2 x)).
  { apply eq_true_iff_eq. rewrite !Qle_bool_iff, Hx, Hy. reflexivity. }
  rewrite E, IH. reflexivity.
Qed.

Lemma sort_desc_ext (l : list A) :
  Forall (fun a => (key1 a == key2 a)%Q) l ->
  sort_desc key1 l = sort_desc key2 l.
Proof.
  induction 1 as [ | x l Hx Hl IH ]; [ reflexivity | ].
  simpl. rewrite IH. apply insert_desc_ext; [ exact Hx | ].
  eapply Permutation_Forall; [ apply sort_desc_perm | exact Hl ].
Qed.
End SortExt.

(** ** The lexical scorer *)

Section Lexical.
Import HybridSearch.

Lemma fold_total_matches (text_lower : string) (keywords : list string)
  (acc : Z) :
  fold_left
    (fun total keyword =>
       total + Z.of_nat (Py.count text_lower (Py.lower keyword)))
    keywords acc
  = acc + fold_right Z.add 0
            (map (fun keyword =>
                    Z.of_nat (Py.count text_lower (Py.lower keyword)))
               keywords).
Proof.
  revert acc. induction keywords as [ | k ks IH ]; intros acc; simpl.
  - lia.
  - rewrite IH. lia.
Qed.

Lemma total_matches_summed (text : string) (keywords : list string) :
  total_matches (Py.lower text) keywords = Spec.summed_counts text keywords.
Proof.
  unfold total_matches, Spec.summed_counts. now rewrite fold_total_matches.
Qed.

Lemma summed_counts_nonneg (text : string) (keywords : list string) :
  0 <= Spec.summed_counts text keywords.
Proof.
  unfold Spec.summed_counts.
  induction keywords as [ | k ks IH ]; simpl; lia.
Qed.

Lemma ratio_nonneg (n : Z) (len : nat) :
  0 <= n -> (0 < len)%nat ->
  (0 <= inject_Z n / inject_Z (Z.of_nat len))%Q.
Proof.
  intros Hn Hlen. apply Qle_shift_div_l.
  - change 0%Q with (inject_Z 0). rewrite <- Zlt_Qlt. lia.
  - rewrite Qmult_0_l. change 0%Q with (inject_Z 0).
    rewrite <- Zle_Qle. exact Hn.
Qed.

(** C5.  Whatever the chunk text, the lexical score against a non-empty
    keyword list lies between 0 and 1 inclusive, and the score against the
    empty keyword list is exactly 0. *)
Theorem C5_lexical_score_bounds (text keyword : string)
  (keywords : list string) :
  (0 <= calculate_keyword_score text (keyword :: keywords)
   /\ calculate_keyword_score text (keyword :: keywords) <= 1)%Q
  /\ calculate_keyword_score text [] = 0%Q.
Proof.
  split; [ | reflexivity ].
  unfold calculate_keyword_score.
  rewrite total_matches_summed. split.
  - apply Q.min_glb; [ | discriminate ].
    apply ratio_nonneg; [ apply summed_counts_nonneg | simpl; lia ].
  - apply Q.le_min_r.
Qed.

(** C6, counterexample.  The query "chat chat" yields the keyword "chat"
    twice: the extractor does not produce a duplicate-free collection. *)
Lemma C6_keywords_repeat : ~ NoDup (extract_keywords "chat chat").
Proof.
  change (extract_keywords "chat chat") with ["chat"; "chat"].
  intros H. inversion H as [ | x l Hin _ ]; subst.
  apply Hin. now left.
Qed.

(** C6, as the code has it.  The extractor returns a list in which a term
    of the query can occur more than once, and for a non-empty keyword list
    the lexical score is the sum of the occurrence counts, one term per
    list entry, divided by the length of the list, capped at 1. *)
Theorem C6_score_divides_by_list_length :
  (exists query, ~ NoDup (extract_keywords query))
  /\ forall (text keyword : string) (keywords : list string),
      calculate_keyword_score text (keyword :: keywords)
      = Qmin (inject_Z (Spec.summed_counts text (keyword :: keywords))
              / inject_Z (Z.of_nat (List.length (keyword :: keywords))))
             1%Q.
Proof.
  split.
  - exists "chat chat".
    change (extract_keywords "chat chat") with ["chat"; "chat"].
    intros H. inversion H as [ | x l Hin _ ]; subst.
    apply Hin. now left.
  - intros text keyword keywords. unfold calculate_keyword_score.
    now rewrite total_matches_summed.
Qed.
End Lexical.

(** ** The hybrid scorer *)

Section Hybrid.
Import HybridSearch.


Lemma hybrid_key_score_doc (keywords : list string) (boost : Q) (doc : Doc) :
  hybrid_key (score_doc keywords boost doc)
  = ((1 - boost) * semantic_score doc
     + boost * calculate_keyword_score (content doc) keywords)%Q.
Proof. reflexivity. Qed.

(** Every document the scoring loop appended carries a [hybrid_score]. *)
Lemma scored_have_hybrid_score (keywords : list string) (boost : Q)
  (semantic_results : list Doc) :
  Forall (fun doc => hybrid_score doc <> None)
    (scored_results keywords boost semantic_results).
Proof.
  unfold scored_results.
  eapply Permutation_Forall; [ apply sort_desc_perm | ].
  apply Forall_forall. intros d Hd. apply in_map_iff in Hd.
  destruct Hd as [d0 [<- _]]. discriminate.
Qed.

Lemma hybrid_search_value (vector_store : VectorStore) (query : string)
  (top_k : Z) (boost : Q) :
  value (hybrid_search vector_store query top_k boost)
  = Py.slice_to
      (scored_results (extract_keywords query) boost
         (similarity_search vector_store query (effective_top_k top_k * 2)))
      (effective_top_k top_k).
Proof. reflexivity. Qed.

Lemma hybrid_search_calls (vector_store : VectorStore) (query : string)
  (top_k : Z) (boost : Q) :
  calls (hybrid_search vector_store query top_k boost)
  = [SimilaritySearch query (effective_top_k top_k * 2)].
Proof. reflexivity. Qed.

(** C10.  A candidate that the vector store returned without a similarity
    enters the hybrid formula with 0.5 as its semantic score: every
    document of the hybrid output that has no [similarity] has the hybrid
    score [(1 - keyword_boost) * 0.5 + keyword_boost * keyword_score]. *)
Theorem C10_missing_similarity_is_half (vector_store : VectorStore)
  (query : string) (top_k : Z) (keyword_boost : Q) (doc : Doc) :
  In doc (value (hybrid_search vector_store query top_k keyword_boost)) ->
  similarity doc = None ->
  hybrid_score doc
  = Some ((1 - keyword_boost) * (5 # 10)
          + keyword_boost
            * calculate_keyword_score (content doc)
                (extract_keywords query))%Q.
Proof.
  rewrite hybrid_search_value. intros Hin Hsim.
  apply in_slice_to in Hin. unfold scored_results in Hin.
  eapply Permutation_in in Hin;
    [ | apply Permutation_sym, sort_desc_perm ].
  apply in_map_iff in Hin. destruct Hin as [d0 [<- Hd0]].
  simpl in Hsim. simpl. unfold semantic_score. now rewrite Hsim.
Qed.

Lemma C10_missing_similarity_is_half_witness :
  let doc := score_doc (extract_keywords "budget") (6 # 10) Sample.unscored in
  In doc (value (hybrid_search Sample.unscored_store "budget" 1 (6 # 10)))
  /\ similarity doc = None
  /\ hybrid_score doc
     = Some ((1 - (6 # 10)) * (5 # 10)
             + (6 # 10) * calculate_keyword_score (content doc)
                            (extract_keywords "budget"))%Q.
Proof.
  intros doc.
  assert (Hin : In doc (value (hybrid_search Sample.unscored_store "budget" 1
                                 (6 # 10)))) by (left; reflexivity).
  assert (Hsim : similarity doc = None) by reflexivity.
  split; [ exact Hin | split; [ exact Hsim | ] ].
  exact (C10_missing_similarity_is_half Sample.unscored_store "budget" 1
           (6 # 10) doc Hin Hsim).
Defined.



End Hybrid.
(** ** The reranker and the orchestrator *)

Section Engine.
Import HybridSearch Reranker RagEngine.

Lemma rerank_without_model (self : ReRanker) (query : string)
  (documents : list Doc) (top_k : Z) :
  model self = None ->
  rerank self query documents top_k = ret (self, Py.slice_to documents top_k).
Proof. intros H. unfold rerank. now rewrite H. Qed.

Lemma rerank_try_calls (predict : CrossEncoder) (query : string)
  (documents : list Doc) (top_k : Z) :
  calls (rerank_try predict query documents top_k)
  = [Predict (Spec.pairs_of query documents)].
Proof. reflexivity. Qed.

Lemma rerank_with_model (self : ReRanker) (predict : CrossEncoder)
  (query : string) (doc : Doc) (documents : list Doc) (top_k : Z) :
  model self = Some predict ->
  rerank self query (doc :: documents) top_k
  = ((self, Spec.rerank_result predict query (doc :: documents) top_k),
     [Predict (Spec.pairs_of query (doc :: documents))]).
Proof.
  intros H. unfold rerank, Spec.rerank_result. rewrite H.
  unfold rerank_try, bind, value, ret, Spec.pairs_of. cbn [fst snd].
  destruct (predict _) as [scores | ]; [ | reflexivity ].
  destruct (forallb _ _); [ | reflexivity ].
  destruct (log_raises _); reflexivity.
Qed.

Lemma rank_unavailable (self : RAGEngine) (question : string) (top_k : Z) :
  model (reranker self) = None ->
  rank self question top_k
  = ((self, Spec.hybrid_of self question top_k),
     [SimilaritySearch question (effective_top_k (top_k * 2) * 2)]).
Proof.
  intros H. unfold rank, Spec.hybrid_of. rewrite H.
  unfold hybrid_search, bind, ret, value. cbn [fst snd].
  destruct (Py.slice_to _ _); reflexivity.
Qed.

Lemma rank_ready (self : RAGEngine) (predict : CrossEncoder)
  (question : string) (top_k : Z) :
  model (reranker self) = Some predict ->
  rank self question top_k
  = match Spec.hybrid_of self question top_k with
    | [] =>
        ((self, []),
         [SimilaritySearch question (effective_top_k (top_k * 2) * 2)])
    | doc :: documents =>
        ((self, Spec.rerank_result predict question (doc :: documents) top_k),
         [SimilaritySearch question (effective_top_k (top_k * 2) * 2);
          Predict (Spec.pairs_of question (doc :: documents))])
    end.
Proof.
  intros H. unfold rank, Spec.hybrid_of. rewrite H.
  unfold hybrid_search at 1. unfold bind at 1. unfold ret at 1.
  unfold hybrid_search, bind, ret, value. cbn [fst snd].
  destruct (Py.slice_to _ _) as [ | doc documents ]; [ reflexivity | ].
  rewrite (rerank_with_model _ predict) by exact H.
  destruct self; reflexivity.
Qed.

Lemma rerank_result_length (predict : CrossEncoder) (query : string)
  (documents : list Doc) (top_k : Z) :
  0 <= top_k ->
  Z.of_nat (List.length (Spec.rerank_result predict query documents top_k))
  <= top_k.
Proof.
  intros Hk. unfold Spec.rerank_result, rerank_try, value. cbn [fst].
  destruct (predict _) as [scores | ];
    [ destruct (forallb _ _); [ destruct (log_raises _) | ] | ];
    now apply slice_to_length_le.
Qed.

(** With the cross-encoder loaded the result holds at most [top_k]
    documents. *)
Lemma rank_ready_at_most_top_k (self : RAGEngine) (predict : CrossEncoder)
  (question : string) (top_k : Z) :
  model (reranker self) = Some predict ->
  0 <= top_k ->
  Z.of_nat (List.length (ranked self question top_k)) <= top_k.
Proof.
  intros H Hk. unfold ranked. rewrite (rank_ready self predict) by exact H.
  destruct (Spec.hybrid_of self question top_k) as [ | doc documents ].
  - simpl. exact Hk.
  - unfold value. cbn [fst snd]. now apply rerank_result_length.
Qed.

(** C1, at the failing input.  With the cross-encoder not loaded, a store of
    three rows and [top_k = 1], the result holds two documents: the hybrid
    stage was asked for [2 * top_k] and nothing cuts its output down. *)
Theorem C1_unavailable_exceeds_top_k :
  List.length (ranked Sample.unavailable "budget" 1) = 2%nat
  /\ 1 < Z.of_nat (List.length (ranked Sample.unavailable "budget" 1)).
Proof. split; [ reflexivity | vm_compute; reflexivity ]. Qed.

Lemma rank_unavailable_is_hybrid (self : RAGEngine) (question : string)
  (top_k : Z) :
  model (reranker self) = None ->
  ranked self question top_k = Spec.hybrid_of self question top_k.
Proof.
  intros H. unfold ranked. now rewrite rank_unavailable.
Qed.

(** C3, at the failing input.  With the cross-encoder not loaded and
    [top_k = 1], the result is the sorted hybrid output cut to two
    documents, in hybrid order, and not that output cut to one. *)
Theorem C3_unavailable_truncates_to_twice_top_k :
  let hybrid_sorted :=
    scored_results (extract_keywords "budget") (6 # 10)
      (similarity_search Sample.store "budget" 4) in
  ranked Sample.unavailable "budget" 1 = Py.slice_to hybrid_sorted 2
  /\ ranked Sample.unavailable "budget" 1 <> Py.slice_to hybrid_sorted 1.
Proof.
  split; [ reflexivity | ].
  intros H. vm_compute in H. discriminate H.
Qed.

Lemma retriever_request (top_k : Z) :
  effective_top_k (top_k * 2) * 2 = if top_k =? 0 then 40 else 4 * top_k.
Proof.
  unfold effective_top_k, Py.truthy.
  destruct (Z.eqb_spec top_k 0) as [-> | Hk]; [ reflexivity | ].
  destruct (Z.eqb_spec (top_k * 2) 0); cbn [negb]; lia.
Qed.

(** C4, counterexample.  For [top_k = 5] no request for [2 * 5] candidates
    reaches the vector store. *)
Lemma C4_no_request_for_twice_top_k :
  ~ In (SimilaritySearch "budget" (2 * 5))
      (calls (rank Sample.ready "budget" 5)).
Proof.
  vm_compute. intros [H | [H | []]]; discriminate H.
Qed.

(** C4, as the code has it.  Every call of [rank] sends exactly one request
    to the vector store: for [4 * top_k] candidates, the orchestrator
    doubling [top_k] and the hybrid stage doubling it again, and for 40
    candidates when [top_k = 0], where the hybrid stage takes its default
    size of 20. *)
Theorem C4_retriever_request (self : RAGEngine) (question : string)
  (top_k : Z) :
  filter Spec.is_similarity_search (calls (rank self question top_k))
  = [SimilaritySearch question (if top_k =? 0 then 40 else 4 * top_k)].
Proof.
  rewrite <- retriever_request.
  destruct (model (reranker self)) as [predict | ] eqn:Hm.
  - rewrite (rank_ready self predict) by exact Hm.
    destruct (Spec.hybrid_of self question top_k); reflexivity.
  - rewrite rank_unavailable by exact Hm. reflexivity.
Qed.

(** C2, counterexample.  With the cross-encoder loaded and [top_k = 0] the
    cross-encoder is invoked: it is not the case that the result is empty
    and that no stage beyond retrieval was called. *)
Lemma C2_top_k_zero_invokes_reranker :
  ~ (ranked Sample.ready "budget" 0 = []
     /\ Spec.only_retrieval (calls (rank Sample.ready "budget" 0))).
Proof.
  intros [_ H].
  assert (Hin : exists pairs,
             In (Predict pairs) (calls (rank Sample.ready "budget" 0))).
  { eexists. vm_compute. right. left. reflexivity. }
  destruct Hin as [pairs Hin]. destruct (H _ Hin) as [q [n Heq]].
  discriminate Heq.
Qed.

Lemma rerank_result_zero (predict : CrossEncoder) (query : string)
  (documents : list Doc) :
  Spec.rerank_result predict query documents 0 = [].
Proof.
  unfold Spec.rerank_result, rerank_try, value. cbn [fst].
  destruct (predict _) as [scores | ];
    [ destruct (forallb _ _); [ destruct (log_raises _) | ] | ];
    reflexivity.
Qed.

(** C2, as the code has it.  With the cross-encoder loaded, [top_k = 0]
    returns an empty result; the hybrid stage reads 0 as its default size of
    20, so 40 candidates are requested and the hybrid output is that of size
    20, and the cross-encoder is invoked on that output whenever it is not
    empty. *)
Theorem C2_top_k_zero_ready (self : RAGEngine) (predict : CrossEncoder)
  (question : string) :
  model (reranker self) = Some predict ->
  ranked self question 0 = []
  /\ Spec.hybrid_of self question 0
     = value (hybrid_search (vector_store self) question 20 (6 # 10))
  /\ calls (rank self question 0)
     = SimilaritySearch question 40
       :: match Spec.hybrid_of self question 0 with
          | [] => []
          | documents => [Predict (Spec.pairs_of question documents)]
          end.
Proof.
  intros H. unfold ranked. rewrite (rank_ready self predict) by exact H.
  split; [ | split; [ reflexivity | ] ].
  - destruct (Spec.hybrid_of self question 0); [ reflexivity | ].
    apply rerank_result_zero.
  - destruct (Spec.hybrid_of self question 0); reflexivity.
Qed.

Lemma C2_top_k_zero_ready_witness :
  model (reranker Sample.ready) = Some Sample.by_length
  /\ ranked Sample.ready "budget" 0 = []
  /\ Spec.hybrid_of Sample.ready "budget" 0
     = value (hybrid_search (vector_store Sample.ready) "budget" 20 (6 # 10))
  /\ calls (rank Sample.ready "budget" 0)
     = SimilaritySearch "budget" 40
       :: match Spec.hybrid_of Sample.ready "budget" 0 with
          | [] => []
          | documents => [Predict (Spec.pairs_of "budget" documents)]
          end.
Proof.
  split; [ reflexivity | ].
  apply (C2_top_k_zero_ready Sample.ready Sample.by_length "budget").
  reflexivity.
Defined.

Lemma clear_set_scores (documents : list Doc) (scores : list Q) :
  map Spec.clear_rerank_score (set_scores documents scores)
  = map Spec.clear_rerank_score documents.
Proof.
  revert scores. induction documents as [ | doc documents IH ];
    intros [ | score scores ]; try reflexivity.
  simpl. now rewrite IH.
Qed.

(** A failure before the sort has moved anything - inference raises, or a
    document is left without a score to sort by - makes [rerank] return the
    documents it was given, in the order it was given them, cut to [top_k];
    at most a [rerank_score] was added to some of them. *)
Lemma rerank_failure_before_sort (predict : CrossEncoder) (query : string)
  (documents : list Doc) (top_k : Z) :
  (predict (Spec.pairs_of query documents) = None
   \/ exists scores,
        predict (Spec.pairs_of query documents) = Some scores
        /\ forallb has_rerank_score (set_scores documents scores) = false) ->
  Spec.rerank_raised predict query documents top_k
  /\ map Spec.clear_rerank_score
       (Spec.rerank_result predict query documents top_k)
     = map Spec.clear_rerank_score (Py.slice_to documents top_k).
Proof.
  unfold Spec.rerank_raised, Spec.rerank_result, rerank_try, value,
    Spec.pairs_of.
  cbn [fst snd].
  intros [Hp | [scores [Hp Hs]]]; rewrite Hp.
  - split; reflexivity.
  - rewrite Hs. cbn [fst snd]. split; [ reflexivity | ].
    now rewrite !slice_to_map, clear_set_scores.
Qed.

(** C7, at the failing input.  The store holds three rows, the third
    without metadata; the cross-encoder is loaded and scores the longest
    text highest; the question is "chat" and [top_k = 2].  The hybrid order
    is "le chat", "rapport", "budget 2023".  The rerank step sorts the list
    in place and then raises while it logs the row without metadata; its
    fallback returns the head of the list as sorted, "budget 2023" then
    "le chat", and not the head of the hybrid order, "le chat" then
    "rapport". *)
Theorem C7_log_failure_returns_reranked_order :
  let hybrid := Spec.hybrid_of Sample.ready_with_null "chat" 2 in
  map content hybrid = ["le chat"; "rapport"; "budget 2023"]
  /\ Spec.rerank_raised Sample.by_length "chat" hybrid 2
  /\ map content (ranked Sample.ready_with_null "chat" 2)
     = ["budget 2023"; "le chat"]
  /\ map content (Py.slice_to hybrid 2) = ["le chat"; "rapport"]
  /\ map Spec.clear_rerank_score (ranked Sample.ready_with_null "chat" 2)
     <> map Spec.clear_rerank_score (Py.slice_to hybrid 2).
Proof.
  intros hybrid.
  split; [ reflexivity | ].
  split; [ reflexivity | ].
  split; [ reflexivity | ].
  split; [ reflexivity | ].
  intros H. apply (f_equal (map content)) in H.
  vm_compute in H. discriminate H.
Qed.

End Engine.

(** ** The fallback scan *)

Section Fallback.
Import VectorStoreFallback.
Variable json_loads : string -> option Value.
Variable float_of_str : string -> option R.

Lemma sum_products (l1 l2 : list R) (acc : R) :
  sum_from acc
    (map (product float_of_str) (combine (map VNum l1) (map VNum l2)))
  = Some (acc + Spec.dot l1 l2)%R.
Proof.
  revert l2 acc. induction l1 as [ | x l1 IH ]; intros [ | y l2 ] acc;
    try (simpl; f_equal; unfold Spec.dot; simpl; lra).
  cbn [map combine sum_from product to_float fst snd].
  rewrite IH. f_equal. unfold Spec.dot. simpl. lra.
Qed.

Lemma sum_squares (l : list R) (acc : R) :
  sum_from acc (map (square float_of_str) (map VNum l))
  = Some (acc + Spec.dot l l)%R.
Proof.
  revert acc. induction l as [ | x l IH ]; intros acc.
  - simpl. f_equal. unfold Spec.dot. simpl. lra.
  - cbn [map sum_from square product to_float fst snd].
    rewrite IH. f_equal. unfold Spec.dot. simpl. lra.
Qed.

Lemma cosine_similarity_vectors (l1 l2 : list R) :
  cosine_similarity json_loads float_of_str (Spec.vector l1) (Spec.vector l2)
  = Some (Spec.cosine l1 l2).
Proof.
  unfold cosine_similarity, Spec.vector, Spec.cosine,
    Spec.norm, decode.
  rewrite sum_products, !sum_squares, !Rplus_0_l.
  destruct (Req_dec_T (sqrt (Spec.dot l1 l1)) 0); [ reflexivity | ].
  destruct (Req_dec_T (sqrt (Spec.dot l2 l2)) 0); reflexivity.
Qed.

Lemma cosine_similarity_not_a_list (l1 : list R) (vec2 v : Value) :
  decode json_loads vec2 = Some v ->
  is_list v = false ->
  cosine_similarity json_loads float_of_str (Spec.vector l1) vec2 = Some 0%R.
Proof.
  intros Hd Hl. unfold cosine_similarity.
  rewrite Hd. unfold Spec.vector, decode.
  destruct v; try reflexivity. discriminate Hl.
Qed.

Lemma scan_step (query_embedding : Value) (doc : Row) (rows : list Row)
  (similarity : R) :
  truthy (embedding doc) = true ->
  cosine_similarity json_loads float_of_str query_embedding (embedding doc) = Some similarity ->
  scan json_loads float_of_str query_embedding (doc :: rows)
  = option_map (cons (Spec.hit_of doc similarity))
      (scan json_loads float_of_str query_embedding rows).
Proof.
  intros Ht Hc. cbn [scan]. rewrite Ht, Hc.
  destruct (scan json_loads float_of_str query_embedding rows); reflexivity.
Qed.

(** C8, as the code has it.  In the fallback scan a stored record whose
    embedding is not a list, once a text value has been decoded, gets
    similarity zero and the scan goes on over the remaining records.  The
    dimension of a numeric embedding is not checked: such a record gets the
    cosine computed from the dot product over the common prefix and the norm
    of each vector, and the scan goes on as well. *)
Theorem C8_scan_over_ill_formed_embeddings (query : list R) (doc : Row)
  (v : Value) (rows : list Row) :
  truthy (embedding doc) = true ->
  decode json_loads (embedding doc) = Some v ->
  is_list v = false ->
  scan json_loads float_of_str (Spec.vector query) (doc :: rows)
  = option_map (cons (Spec.hit_of doc 0%R)) (scan json_loads float_of_str (Spec.vector query) rows)
  /\ forall (i : Z) (c : string) (m : list (string * string)) (l : list R),
      scan json_loads float_of_str (Spec.vector query) (mkRow i c m (Spec.vector l) :: rows)
      = match l with
        | [] => scan json_loads float_of_str (Spec.vector query) rows
        | _ =>
            option_map (cons (mkHit i c m (Spec.cosine query l)))
              (scan json_loads float_of_str (Spec.vector query) rows)
        end.
Proof.
  intros Ht Hd Hl. split.
  - apply scan_step; [ exact Ht | ].
    now apply cosine_similarity_not_a_list with (v := v).
  - intros i c m [ | x l ]; [ reflexivity | ].
    apply (scan_step (Spec.vector query)
             (mkRow i c m (Spec.vector (x :: l)))); [ reflexivity | ].
    apply cosine_similarity_vectors.
Qed.
End Fallback.

Section FallbackExamples.
Import VectorStoreFallback.
Local Open Scope R_scope.

Lemma cosine_wrong_dimension : Spec.cosine [1; 0] [1] = 1.
Proof.
  unfold Spec.cosine, Spec.norm, Spec.dot. simpl.
  replace (1 * 1 + (0 * 0 + 0)) with 1 by lra.
  replace (1 * 1 + 0) with 1 by lra.
  rewrite sqrt_1.
  destruct (Req_dec_T 1 0) as [E | _]; [ lra | ]. lra.
Qed.

(** C8, counterexample.  Against the query embedding (1, 0), a stored
    embedding of the wrong dimension, (1), gets similarity 1, not 0; and a
    stored embedding with a non-numeric element, (1, null), makes the whole
    fallback search raise although a well-formed record follows it. *)
Lemma C8_wrong_dimension_and_non_numeric :
  cosine_similarity no_json no_float (Spec.vector [1; 0]) (Spec.vector [1])
  <> Some 0
  /\ fallback_search no_json no_float (Spec.vector [1; 0])
       [row_of 1 (VList [VNum 1; VNone]); row_of 2 (Spec.vector [1; 0])] 5
     = None.
Proof.
  split.
  - rewrite cosine_similarity_vectors, cosine_wrong_dimension.
    intros H. injection H as H. lra.
  - reflexivity.
Qed.

Lemma C8_scan_over_ill_formed_embeddings_witness :
  let doc := row_of 1 (VStr "null") in
  let query := Spec.vector [1; 0] in
  truthy (embedding doc) = true
  /\ decode null_only (embedding doc) = Some VNone
  /\ is_list VNone = false
  /\ scan null_only no_float query [doc] = Some [Spec.hit_of doc 0]
  /\ forall (i : Z) (c : string) (m : list (string * string)) (l : list R),
      scan null_only no_float query [mkRow i c m (Spec.vector l)]
      = match l with
        | [] => Some []
        | _ => Some [mkHit i c m (Spec.cosine [1; 0] l)]
        end.
Proof.
  intros doc query.
  split; [ reflexivity | split; [ reflexivity | split; [ reflexivity | ] ] ].
  apply (C8_scan_over_ill_formed_embeddings null_only no_float [1; 0] doc
           VNone []); reflexivity.
Defined.
End FallbackExamples.

(** ** More on the keyword extractor and the lexical scorer *)

Section StringFacts.
Import Notions.

Lemma lower_char_idempotent (c : ascii) :
  Py.lower_char (Py.lower_char c) = Py.lower_char c.
Proof.
  destruct c as [b0 b1 b2 b3 b4 b5 b6 b7].
  destruct b0, b1, b2, b3, b4, b5, b6, b7; reflexivity.
Qed.

Lemma lower_idempotent (s : string) : Py.lower (Py.lower s) = Py.lower s.
Proof.
  induction s as [ | c s IH ]; [ reflexivity | ].
  simpl. now rewrite lower_char_idempotent, IH.
Qed.

Lemma lower_is_lower (s : string) : all_chars is_lower (Py.lower s) = true.
Proof.
  induction s as [ | c s IH ]; [ reflexivity | ].
  simpl. rewrite IH, andb_true_r. unfold is_lower.
  rewrite lower_char_idempotent. apply Ascii.eqb_refl.
Qed.

Lemma all_lower_fixed (s : string) :
  all_chars is_lower s = true -> Py.lower s = s.
Proof.
  induction s as [ | c s IH ]; [ reflexivity | ].
  simpl. intros H. apply andb_true_iff in H. destruct H as [Hc Hs].
  apply Ascii.eqb_eq in Hc. now rewrite Hc, IH.
Qed.

Lemma all_chars_rev_string (p : ascii -> bool) (acc s : string) :
  all_chars p (Py.rev_string acc s) = all_chars p acc && all_chars p s.
Proof.
  revert acc. induction s as [ | c s IH ]; intros acc; simpl.
  - now rewrite andb_true_r.
  - rewrite IH. simpl. now rewrite andb_assoc, (andb_comm (p c)).
Qed.

Lemma all_chars_replace_del (p : ascii -> bool) (c : ascii) (s : string) :
  all_chars p s = true -> all_chars p (Py.replace_del c s) = true.
Proof.
  induction s as [ | a s IH ]; [ reflexivity | ].
  simpl. intros H. apply andb_true_iff in H. destruct H as [Ha Hs].
  destruct (Ascii.eqb a c); [ now apply IH | ].
  simpl. now rewrite Ha, IH.
Qed.

Lemma replace_del_removes (c : ascii) (s : string) :
  all_chars (is_not c) (Py.replace_del c s) = true.
Proof.
  induction s as [ | a s IH ]; [ reflexivity | ].
  simpl. destruct (Ascii.eqb a c) eqn:E; [ exact IH | ].
  simpl. unfold is_not at 1. now rewrite E, IH.
Qed.

Lemma split_aux_all_chars (p : ascii -> bool) (s cur : string) :
  all_chars p cur = true -> all_chars p s = true ->
  Forall (fun w => all_chars p w = true) (Py.split_aux cur s).
Proof.
  revert cur. induction s as [ | c s IH ]; intros cur Hcur Hs.
  - simpl. destruct cur; [ constructor | ].
    constructor; [ | constructor ].
    now rewrite all_chars_rev_string.
  - simpl in Hs. apply andb_true_iff in Hs. destruct Hs as [Hc Hs].
    simpl. destruct (Py.isspace c).
    + destruct cur; [ now apply IH | ].
      constructor; [ now rewrite all_chars_rev_string | now apply IH ].
    + apply IH; [ | exact Hs ]. simpl. now rewrite Hc, Hcur.
Qed.

Lemma split_aux_not_blank (s cur : string) :
  all_chars not_blank cur = true ->
  Forall (fun w => all_chars not_blank w = true) (Py.split_aux cur s).
Proof.
  revert cur. induction s as [ | c s IH ]; intros cur Hcur.
  - simpl. destruct cur; [ constructor | ].
    constructor; [ | constructor ].
    now rewrite all_chars_rev_string.
  - simpl. destruct (Py.isspace c) eqn:E.
    + destruct cur; [ now apply IH | ].
      constructor; [ now rewrite all_chars_rev_string | now apply IH ].
    + apply IH. simpl. unfold not_blank at 1. now rewrite E, Hcur.
Qed.

Lemma split_word_all_chars (p : ascii -> bool) (s w : string) :
  all_chars p s = true -> In w (Py.split s) -> all_chars p w = true.
Proof.
  intros Hs Hin.
  exact (proj1 (Forall_forall _ _)
           (split_aux_all_chars p s EmptyString eq_refl Hs) w Hin).
Qed.

Lemma split_word_not_blank (s w : string) :
  In w (Py.split s) -> all_chars not_blank w = true.
Proof.
  intros Hin.
  exact (proj1 (Forall_forall _ _)
           (split_aux_not_blank s EmptyString eq_refl) w Hin).
Qed.

Lemma rev_string_twice (s a b : string) :
  Py.rev_string a (Py.rev_string b s) = Py.rev_string (s ++ a)%string b.
Proof.
  revert b. induction s as [ | c s IH ]; intros b; [ reflexivity | ].
  simpl. now rewrite IH.
Qed.

Lemma append_empty_r (s : string) : (s ++ "")%string = s.
Proof. induction s as [ | c s IH ]; simpl; congruence. Qed.

Lemma lstrip_not_blank (s : string) :
  all_chars not_blank s = true -> Py.lstrip s = s.
Proof.
  destruct s as [ | c s ]; [ reflexivity | ].
  simpl. unfold not_blank at 1. intros H.
  apply andb_true_iff in H. destruct H as [Hc _].
  now destruct (Py.isspace c).
Qed.

(** A word without blanks is left alone by [strip]. *)
Lemma strip_not_blank (s : string) :
  all_chars not_blank s = true -> Py.strip s = s.
Proof.
  intros H. unfold Py.strip. rewrite (lstrip_not_blank s H).
  rewrite lstrip_not_blank by now rewrite all_chars_rev_string.
  rewrite rev_string_twice. simpl. apply append_empty_r.
Qed.
End StringFacts.

Section KeywordFacts.
Import HybridSearch Notions.

(** X1.  Every keyword that the extractor returns has more than two
    characters, is not a stop word, holds no blank, no question mark and no
    exclamation mark, and is in lower case. *)
Theorem X1_keywords_well_formed (query keyword : string) :
  In keyword (extract_keywords query) ->
  (2 < String.length keyword)%nat
  /\ is_stopword keyword = false
  /\ all_chars not_blank keyword = true
  /\ all_chars (is_not "?") keyword = true
  /\ all_chars (is_not "!") keyword = true
  /\ Py.lower keyword = keyword.
Proof.
  unfold extract_keywords. intros H.
  apply in_map_iff in H. destruct H as [w [Hstrip Hw]].
  apply filter_In in Hw. destruct Hw as [Hin Hkeep].
  pose proof (split_word_not_blank _ _ Hin) as Hnb.
  rewrite (strip_not_blank w Hnb) in *. subst w.
  apply andb_true_iff in Hkeep. destruct Hkeep as [Hkeep Hlen].
  apply andb_true_iff in Hkeep. destruct Hkeep as [_ Hstop].
  apply Nat.ltb_lt in Hlen. apply negb_true_iff in Hstop.
  repeat split; try assumption.
  - apply (split_word_all_chars _ _ _ (all_chars_replace_del _ _ _
             (replace_del_removes _ _)) Hin).
  - apply (split_word_all_chars _ _ _ (replace_del_removes _ _) Hin).
  - apply all_lower_fixed.
    refine (split_word_all_chars _ _ _ _ Hin).
    do 2 apply all_chars_replace_del. apply lower_is_lower.
Qed.

Lemma X1_keywords_well_formed_witness :
  In "budget" (extract_keywords "Quel est le BUDGET ?")
  /\ (2 < String.length "budget")%nat
  /\ is_stopword "budget" = false
  /\ all_chars not_blank "budget" = true
  /\ all_chars (is_not "?") "budget" = true
  /\ all_chars (is_not "!") "budget" = true
  /\ Py.lower "budget" = "budget".
Proof.
  assert (H : In "budget" (extract_keywords "Quel est le BUDGET ?"))
    by (left; reflexivity).
  split; [ exact H | ].
  exact (X1_keywords_well_formed "Quel est le BUDGET ?" "budget" H).
Defined.
End KeywordFacts.

Section CountFacts.
Import Notions.

Lemma prefix_append (sub s : string) :
  String.prefix sub s = true <-> exists post, s = (sub ++ post)%string.
Proof.
  revert s. induction sub as [ | a sub IH ]; intros s.
  - split; [ intros _; now exists s | intros _; now destruct s ].
  - destruct s as [ | b s ]; simpl.
    + split; [ discriminate | intros [post H]; discriminate H ].
    + destruct (ascii_dec a b) as [-> | Hab].
      * rewrite IH. split; intros [post H]; exists post.
        -- now rewrite H.
        -- now injection H.
      * split; [ discriminate | ].
        intros [post H]. injection H as H1 _. now symmetry in H1.
Qed.

Lemma count_aux_occurs (sub s : string) (skip : nat) :
  (0 < Py.count_aux sub s skip)%nat -> occurs_in sub s.
Proof.
  revert skip. induction s as [ | c s IH ]; intros skip;
    cbn [Py.count_aux].
  - lia.
  - assert (Hstep : forall k, (0 < Py.count_aux sub s k)%nat ->
                              occurs_in sub (String c s)).
    { intros k Hk. destruct (IH k Hk) as [pre [post ->]].
      now exists (String c pre), post. }
    destruct skip as [ | k ]; [ | apply Hstep ].
    destruct (String.prefix sub (String c s)) eqn:E; [ | apply Hstep ].
    intros _. apply prefix_append in E. destruct E as [post E].
    exists EmptyString, post. exact E.
Qed.

Lemma occurs_count_aux (sub s : string) :
  occurs_in sub s -> sub <> EmptyString ->
  (0 < Py.count_aux sub s 0)%nat.
Proof.
  intros [pre [post ->]] Hsub.
  induction pre as [ | c pre IH ].
  - destruct sub as [ | a sub ]; [ congruence | ].
    change ("" ++ String a sub ++ post)%string
      with (String a (sub ++ post)%string).
    cbn [Py.count_aux].
    assert (E : String.prefix (String a sub)
                  (String a (sub ++ post)) = true).
    { apply prefix_append. now exists post. }
    rewrite E. lia.
  - change (String c pre ++ sub ++ post)%string
      with (String c (pre ++ sub ++ post)%string).
    cbn [Py.count_aux].
    destruct (String.prefix sub (String c (pre ++ sub ++ post)));
      [ lia | exact IH ].
Qed.

(** [s.count(sub)] is positive exactly when [sub] occurs in [s]. *)
Lemma count_positive_iff (s sub : string) :
  (0 < Py.count s sub)%nat <-> occurs_in sub s.
Proof.
  unfold Py.count. destruct sub as [ | a sub ].
  - split; [ intros _; now exists EmptyString, s | lia ].
  - split; [ apply count_aux_occurs | ].
    intros H. apply occurs_count_aux; [ exact H | discriminate ].
Qed.

End CountFacts.

Section ScoreFacts.
Import HybridSearch Notions.

Lemma summed_counts_zero_iff (text : string) (keywords : list string) :
  Spec.summed_counts text keywords = 0
  <-> forall keyword, In keyword keywords ->
        Py.count (Py.lower text) (Py.lower keyword) = 0%nat.
Proof.
  unfold Spec.summed_counts.
  induction keywords as [ | k ks IH ]; simpl.
  - split; [ intros _ kw [] | reflexivity ].
  - pose proof (summed_counts_nonneg text ks) as Hnn.
    unfold Spec.summed_counts in Hnn. split.
    + intros H kw [<- | Hin]; [ lia | ].
      apply IH; [ lia | exact Hin ].
    + intros H.
      rewrite (H k (or_introl eq_refl)).
      rewrite (proj2 IH); [ reflexivity | ].
      intros kw Hin. apply H. now right.
Qed.

Lemma summed_counts_at_least (text : string) (keywords : list string) :
  (forall keyword, In keyword keywords ->
     (0 < Py.count (Py.lower text) (Py.lower keyword))%nat) ->
  Z.of_nat (List.length keywords) <= Spec.summed_counts text keywords.
Proof.
  unfold Spec.summed_counts.
  induction keywords as [ | k ks IH ]; intros H; [ simpl; lia | ].
  cbn [List.length map fold_right].
  pose proof (H k (or_introl eq_refl)) as Hk.
  assert (Hks : Z.of_nat (List.length ks)
                <= fold_right Z.add 0
                     (map (fun keyword =>
                             Z.of_nat (Py.count (Py.lower text)
                                         (Py.lower keyword))) ks)).
  { apply IH. intros kw Hin. apply H. now right. }
  lia.
Qed.

Lemma ratio_zero_iff (n : Z) (len : nat) :
  (0 < len)%nat ->
  (inject_Z n / inject_Z (Z.of_nat len) == 0)%Q <-> n = 0.
Proof.
  intros Hlen.
  assert (Hnz : ~ (inject_Z (Z.of_nat len) == 0)%Q).
  { unfold Qeq. simpl. lia. }
  split.
  - intros H.
    assert (E : (inject_Z n == 0)%Q).
    { rewrite <- (Qmult_div_r (inject_Z n) (inject_Z (Z.of_nat len)) Hnz).
      rewrite H. ring. }
    unfold Qeq in E. simpl in E. lia.
  - intros ->. unfold Qdiv. change (inject_Z 0) with 0%Q. ring.
Qed.

(** X3.  The lexical score against a non-empty keyword list is zero exactly
    when no keyword, in lower case, occurs anywhere in the lower-cased text,
    inside a word or not. *)
Theorem X3_score_zero_iff_no_occurrence (text keyword : string)
  (keywords : list string) :
  (calculate_keyword_score text (keyword :: keywords) == 0)%Q
  <-> forall kw, In kw (keyword :: keywords) ->
        ~ occurs_in (Py.lower kw) (Py.lower text).
Proof.
  unfold calculate_keyword_score. rewrite total_matches_summed.
  set (n := Spec.summed_counts text (keyword :: keywords)).
  set (len := List.length (keyword :: keywords)).
  assert (Hlen : (0 < len)%nat) by (subst len; simpl; lia).
  assert (Hn : 0 <= n) by apply summed_counts_nonneg.
  assert (Hmin : (Qmin (inject_Z n / inject_Z (Z.of_nat len)) 1 == 0)%Q
                 <-> n = 0).
  { split; intros H.
    - apply (ratio_zero_iff n len Hlen).
      destruct (Q.min_spec (inject_Z n / inject_Z (Z.of_nat len)) 1)
        as [[_ E] | [_ E]].
      + eapply Qeq_trans; [ apply Qeq_sym, E | exact H ].
      + assert (C : (1 == 0)%Q)
          by (eapply Qeq_trans; [ apply Qeq_sym, E | exact H ]).
        discriminate C.
    - apply (ratio_zero_iff n len Hlen) in H.
      eapply Qeq_trans; [ | exact H ].
      apply Q.min_l. apply Qle_lteq. left.
      eapply Qle_lt_trans; [ apply Qle_lteq; right; exact H | reflexivity ]. }
  rewrite Hmin. subst n. rewrite summed_counts_zero_iff.
  split; intros H kw Hin.
  - rewrite <- count_positive_iff. specialize (H kw Hin). lia.
  - specialize (H kw Hin). rewrite <- count_positive_iff in H. lia.
Qed.

(** X4.  When every keyword of a non-empty list occurs in the text, the
    lexical score is 1. *)
Theorem X4_score_one_when_all_occur (text keyword : string)
  (keywords : list string) :
  (forall kw, In kw (keyword :: keywords) ->
     occurs_in (Py.lower kw) (Py.lower text)) ->
  (calculate_keyword_score text (keyword :: keywords) == 1)%Q.
Proof.
  intros H. unfold calculate_keyword_score. rewrite total_matches_summed.
  apply Q.min_r.
  apply Qle_shift_div_l.
  - change 0%Q with (inject_Z 0). rewrite <- Zlt_Qlt. simpl. lia.
  - rewrite Qmult_1_l, <- Zle_Qle.
    apply summed_counts_at_least.
    intros kw Hin. apply count_positive_iff. now apply H.
Qed.

Lemma X4_score_one_when_all_occur_witness :
  (forall kw, In kw ["budget"; "2023"] ->
     occurs_in (Py.lower kw) (Py.lower "Le Budget 2023"))
  /\ (calculate_keyword_score "Le Budget 2023" ["budget"; "2023"] == 1)%Q.
Proof.
  assert (H : forall kw, In kw ["budget"; "2023"] ->
                occurs_in (Py.lower kw) (Py.lower "Le Budget 2023")).
  { intros kw [<- | [<- | []]].
    - exists "le ", " 2023". reflexivity.
    - exists "le budget ", "". reflexivity. }
  split; [ exact H | ].
  exact (X4_score_one_when_all_occur "Le Budget 2023" "budget" ["2023"] H).
Defined.

Lemma total_matches_lower (text : string) (keywords : list string) :
  Spec.summed_counts (Py.lower text) (map Py.lower keywords)
  = Spec.summed_counts text keywords.
Proof.
  unfold Spec.summed_counts. rewrite lower_idempotent, map_map.
  f_equal. apply map_ext. intros kw. now rewrite lower_idempotent.
Qed.

(** X5.  Keyword extraction and lexical scoring ignore case: putting the
    query in lower case first gives the same keywords, and putting the text
    and the keywords in lower case first gives the same score. *)
Theorem X5_case_is_ignored (query text : string) (keywords : list string) :
  extract_keywords (Py.lower query) = extract_keywords query
  /\ calculate_keyword_score (Py.lower text) (map Py.lower keywords)
     = calculate_keyword_score text keywords.
Proof.
  split.
  - unfold extract_keywords. now rewrite lower_idempotent.
  - destruct keywords as [ | k ks ]; [ reflexivity | ].
    unfold calculate_keyword_score.
    change (map Py.lower (k :: ks)) with (map Py.lower (k :: ks)).
    rewrite !total_matches_summed.
    change (Py.lower k :: map Py.lower ks) with (map Py.lower (k :: ks)).
    now rewrite total_matches_lower, length_map.
Qed.
End ScoreFacts.

(** ** More on the hybrid scorer *)

Section SortedFacts.
Context {A : Type}.
Variable R : A -> A -> Prop.

Lemma firstn_sorted (n : nat) (l : list A) :
  StronglySorted R l -> StronglySorted R (firstn n l).
Proof.
  intros H. revert n. induction H as [ | x l Hs IH Hx ]; intros n.
  - rewrite firstn_nil. constructor.
  - destruct n as [ | n ]; [ constructor | ].
    simpl. constructor; [ apply IH | ].
    apply Forall_forall. intros y Hy.
    apply (proj1 (Forall_forall _ _) Hx). eapply in_firstn, Hy.
Qed.

Lemma slice_to_sorted (k : Z) (l : list A) :
  StronglySorted R l -> StronglySorted R (Py.slice_to l k).
Proof.
  intros H. unfold Py.slice_to. destruct (0 <=? k); now apply firstn_sorted.
Qed.
End SortedFacts.

Section HybridFacts.
Import HybridSearch Notions.

Lemma keyword_score_bounds (text : string) (keywords : list string) :
  (0 <= calculate_keyword_score text keywords
   /\ calculate_keyword_score text keywords <= 1)%Q.
Proof.
  destruct keywords as [ | k ks ]; [ split; discriminate | ].
  unfold calculate_keyword_score. rewrite total_matches_summed. split.
  - apply Q.min_glb; [ | discriminate ].
    apply ratio_nonneg; [ apply summed_counts_nonneg | simpl; lia ].
  - apply Q.le_min_r.
Qed.

Lemma in_hybrid_search (vector_store : VectorStore) (query : string)
  (top_k : Z) (keyword_boost : Q) (doc : Doc) :
  In doc (value (hybrid_search vector_store query top_k keyword_boost)) ->
  exists doc0,
    In doc0 (similarity_search vector_store query (effective_top_k top_k * 2))
    /\ doc = score_doc (extract_keywords query) keyword_boost doc0.
Proof.
  rewrite hybrid_search_value. intros Hin.
  apply in_slice_to in Hin. unfold scored_results in Hin.
  eapply Permutation_in in Hin;
    [ | apply Permutation_sym, sort_desc_perm ].
  apply in_map_iff in Hin. destruct Hin as [d0 [<- Hd0]].
  now exists d0.
Qed.

(** X6.  Whatever the store returns and whatever the weight, the hybrid
    search returns its documents in non-increasing order of hybrid score,
    and never more documents than the store returned. *)
Theorem X6_hybrid_output_sorted (vector_store : VectorStore)
  (query : string) (top_k : Z) (keyword_boost : Q) :
  let out := value (hybrid_search vector_store query top_k keyword_boost) in
  StronglySorted (fun a b => (hybrid_key b <= hybrid_key a)%Q) out
  /\ (List.length out
      <= List.length
           (similarity_search vector_store query (effective_top_k top_k * 2)))%nat.
Proof.
  intros out. subst out. rewrite hybrid_search_value. split.
  - apply slice_to_sorted. unfold scored_results. apply sort_desc_sorted.
  - unfold Py.slice_to, scored_results.
    destruct (0 <=? effective_top_k top_k);
      rewrite length_firstn, sort_desc_length, length_map; lia.
Qed.

(** X7.  For a non-negative [top_k] the hybrid search returns as many
    documents as the store returned, up to the effective size: [top_k]
    itself, or 20 when [top_k] is 0. *)
Theorem X7_hybrid_output_size (vector_store : VectorStore) (query : string)
  (top_k : Z) (keyword_boost : Q) :
  0 <= top_k ->
  List.length (value (hybrid_search vector_store query top_k keyword_boost))
  = Nat.min (Z.to_nat (if top_k =? 0 then 20 else top_k))
      (List.length
         (similarity_search vector_store query
            (if top_k =? 0 then 40 else top_k * 2))).
Proof.
  intros Hk. rewrite hybrid_search_value.
  unfold effective_top_k, Py.truthy, Py.slice_to, scored_results.
  destruct (Z.eqb_spec top_k 0) as [-> | Hnz]; cbn [negb].
  - cbn. now rewrite length_firstn, sort_desc_length, length_map.
  - destruct (Z.leb_spec 0 top_k); [ | lia ].
    now rewrite length_firstn, sort_desc_length, length_map.
Qed.

Lemma X7_hybrid_output_size_witness :
  0 <= 2
  /\ List.length (value (hybrid_search Sample.store "budget" 2 (6 # 10)))
     = Nat.min (Z.to_nat 2)
         (List.length (similarity_search Sample.store "budget" (2 * 2))).
Proof.
  split; [ lia | ].
  apply (X7_hybrid_output_size Sample.store "budget" 2 (6 # 10)). lia.
Defined.

(** X8.  Every document that the hybrid search returns is a document the
    store returned, with its content, metadata, similarity and rerank score
    untouched, and with the lexical score of its content against the query's
    keywords as its keyword score. *)
Theorem X8_hybrid_output_from_store (vector_store : VectorStore)
  (query : string) (top_k : Z) (keyword_boost : Q) (doc : Doc) :
  In doc (value (hybrid_search vector_store query top_k keyword_boost)) ->
  exists doc0,
    In doc0 (similarity_search vector_store query (effective_top_k top_k * 2))
    /\ content doc = content doc0
    /\ metadata doc = metadata doc0
    /\ similarity doc = similarity doc0
    /\ rerank_score doc = rerank_score doc0
    /\ keyword_score doc
       = Some (calculate_keyword_score (content doc0) (extract_keywords query)).
Proof.
  intros Hin. apply in_hybrid_search in Hin.
  destruct Hin as [doc0 [Hin0 ->]]. exists doc0.
  repeat split; try reflexivity. exact Hin0.
Qed.

Lemma X8_hybrid_output_from_store_witness :
  let doc := score_doc (extract_keywords "budget") (6 # 10) Sample.unscored in
  In doc (value (hybrid_search Sample.unscored_store "budget" 1 (6 # 10)))
  /\ exists doc0,
      In doc0 (similarity_search Sample.unscored_store "budget"
                 (effective_top_k 1 * 2))
      /\ content doc = content doc0
      /\ metadata doc = metadata doc0
      /\ similarity doc = similarity doc0
      /\ rerank_score doc = rerank_score doc0
      /\ keyword_score doc
         = Some (calculate_keyword_score (content doc0)
                   (extract_keywords "budget")).
Proof.
  intros doc.
  assert (Hin : In doc (value (hybrid_search Sample.unscored_store "budget" 1
                                 (6 # 10)))) by (left; reflexivity).
  split; [ exact Hin | ].
  exact (X8_hybrid_output_from_store Sample.unscored_store "budget" 1
           (6 # 10) doc Hin).
Defined.

(** X9.  When the effective size is at least the number of documents the
    store returned, the hybrid search drops and repeats nothing: its output
    is a permutation of the scored candidates. *)
Theorem X9_hybrid_keeps_all_when_room (vector_store : VectorStore)
  (query : string) (top_k : Z) (keyword_boost : Q) :
  Z.of_nat (List.length
              (similarity_search vector_store query
                 (effective_top_k top_k * 2)))
  <= effective_top_k top_k ->
  Permutation
    (map (score_doc (extract_keywords query) keyword_boost)
       (similarity_search vector_store query (effective_top_k top_k * 2)))
    (value (hybrid_search vector_store query top_k keyword_boost)).
Proof.
  intros Hroom. rewrite hybrid_search_value.
  unfold Py.slice_to, scored_results.
  destruct (Z.leb_spec 0 (effective_top_k top_k)) as [Hpos | Hneg]; [ | lia ].
  rewrite firstn_all2
    by (rewrite sort_desc_length, length_map; lia).
  apply sort_desc_perm.
Qed.

Lemma X9_hybrid_keeps_all_when_room_witness :
  Z.of_nat (List.length
              (similarity_search Sample.store "budget"
                 (effective_top_k 3 * 2)))
  <= effective_top_k 3
  /\ Permutation
       (map (score_doc (extract_keywords "budget") (6 # 10))
          (similarity_search Sample.store "budget" (effective_top_k 3 * 2)))
       (value (hybrid_search Sample.store "budget" 3 (6 # 10))).
Proof.
  assert (H : Z.of_nat (List.length
                          (similarity_search Sample.store "budget"
                             (effective_top_k 3 * 2)))
              <= effective_top_k 3) by (vm_compute; discriminate).
  split; [ exact H | ].
  exact (X9_hybrid_keeps_all_when_room Sample.store "budget" 3 (6 # 10) H).
Defined.
End HybridFacts.

Section HybridOrder.
Import HybridSearch Notions.

(** X10.  With a weight between 0 and 1 and similarities between 0 and 1,
    every hybrid score that the search returns lies between 0 and 1. *)
Theorem X10_hybrid_score_bounds (vector_store : VectorStore) (query : string)
  (top_k : Z) (keyword_boost : Q) (doc : Doc) :
  (0 <= keyword_boost)%Q -> (keyword_boost <= 1)%Q ->
  (forall doc0,
     In doc0 (similarity_search vector_store query (effective_top_k top_k * 2)) ->
     (0 <= semantic_score doc0 /\ semantic_score doc0 <= 1)%Q) ->
  In doc (value (hybrid_search vector_store query top_k keyword_boost)) ->
  exists h, hybrid_score doc = Some h /\ (0 <= h)%Q /\ (h <= 1)%Q.
Proof.
  intros Hb0 Hb1 Hsem Hin. apply in_hybrid_search in Hin.
  destruct Hin as [doc0 [Hin0 ->]]. eexists. split; [ reflexivity | ].
  destruct (Hsem doc0 Hin0) as [Hs0 Hs1].
  destruct (keyword_score_bounds (content doc0) (extract_keywords query))
    as [Hk0 Hk1].
  set (s := semantic_score doc0) in *.
  set (k := calculate_keyword_score (content doc0) (extract_keywords query))
    in *.
  split.
  - apply Qle_trans with (0 + 0)%Q; [ discriminate | ].
    apply Qplus_le_compat; apply Qmult_le_0_compat; try assumption.
    apply (Qplus_le_r _ _ keyword_boost). ring_simplify. exact Hb1.
  - apply Qle_trans
      with ((1 - keyword_boost) * 1 + keyword_boost * 1)%Q;
      [ | ring_simplify; apply Qle_refl ].
    apply Qplus_le_compat.
    + rewrite !(Qmult_comm (1 - keyword_boost)).
      apply Qmult_le_compat_r; [ exact Hs1 | ].
      apply (Qplus_le_r _ _ keyword_boost). ring_simplify. exact Hb1.
    + rewrite !(Qmult_comm keyword_boost).
      apply Qmult_le_compat_r; assumption.
Qed.

Lemma X10_hybrid_score_bounds_witness :
  let doc := score_doc (extract_keywords "budget") (6 # 10) Sample.unscored in
  (0 <= 6 # 10)%Q /\ (6 # 10 <= 1)%Q
  /\ (forall doc0,
        In doc0 (similarity_search Sample.unscored_store "budget"
                   (effective_top_k 1 * 2)) ->
        (0 <= semantic_score doc0 /\ semantic_score doc0 <= 1)%Q)
  /\ In doc (value (hybrid_search Sample.unscored_store "budget" 1 (6 # 10)))
  /\ exists h, hybrid_score doc = Some h /\ (0 <= h)%Q /\ (h <= 1)%Q.
Proof.
  intros doc.
  assert (H0 : (0 <= 6 # 10)%Q) by discriminate.
  assert (H1 : (6 # 10 <= 1)%Q) by discriminate.
  assert (Hs : forall doc0,
             In doc0 (similarity_search Sample.unscored_store "budget"
                        (effective_top_k 1 * 2)) ->
             (0 <= semantic_score doc0 /\ semantic_score doc0 <= 1)%Q).
  { intros doc0 [<- | []]. split; discriminate. }
  assert (Hin : In doc (value (hybrid_search Sample.unscored_store "budget" 1
                                 (6 # 10)))) by (left; reflexivity).
  repeat (split; [ assumption | ]).
  exact (X10_hybrid_score_bounds Sample.unscored_store "budget" 1 (6 # 10)
           doc H0 H1 Hs Hin).
Defined.

Lemma keyword_key_score_doc (keywords : list string) (boost : Q) (doc : Doc) :
  keyword_key (score_doc keywords boost doc)
  = calculate_keyword_score (content doc) keywords.
Proof. reflexivity. Qed.

(** X11.  With [keyword_boost = 1] the hybrid ranking of a candidate pool is
    its ranking by keyword score alone: non-increasing keyword score,
    candidates of equal keyword score in the order in which the store
    returned them; the search returns the head of that ranking. *)
Theorem X11_full_boost_is_lexical_ranking (vector_store : VectorStore)
  (query : string) (top_k : Z) :
  let pool :=
    map (score_doc (extract_keywords query) 1)
      (similarity_search vector_store query (effective_top_k top_k * 2)) in
  Spec.stable_ranking keyword_key pool (sort_desc keyword_key pool)
  /\ value (hybrid_search vector_store query top_k 1)
     = Py.slice_to (sort_desc keyword_key pool) (effective_top_k top_k).
Proof.
  intros pool. split; [ apply sort_desc_stable_ranking | ].
  rewrite hybrid_search_value. f_equal.
  unfold scored_results. fold pool. apply sort_desc_ext.
  apply Forall_forall. intros d Hd. apply in_map_iff in Hd.
  destruct Hd as [d0 [<- _]].
  rewrite hybrid_key_score_doc, keyword_key_score_doc. ring.
Qed.

(** X13.  For a weight between 0 and 1 the hybrid score does not decrease
    when the semantic score and the keyword score do not: of two candidates
    scored against the same keywords, the one with the larger semantic score
    and the larger lexical score has the larger hybrid score. *)
Theorem X13_hybrid_score_monotone (keywords : list string) (keyword_boost : Q)
  (doc1 doc2 : Doc) :
  (0 <= keyword_boost)%Q -> (keyword_boost <= 1)%Q ->
  (semantic_score doc1 <= semantic_score doc2)%Q ->
  (calculate_keyword_score (content doc1) keywords
   <= calculate_keyword_score (content doc2) keywords)%Q ->
  (hybrid_key (score_doc keywords keyword_boost doc1)
   <= hybrid_key (score_doc keywords keyword_boost doc2))%Q.
Proof.
  intros Hb0 Hb1 Hs Hk. rewrite !hybrid_key_score_doc.
  apply Qplus_le_compat.
  - rewrite !(Qmult_comm (1 - keyword_boost)).
    apply Qmult_le_compat_r; [ exact Hs | ].
    apply (Qplus_le_r _ _ keyword_boost). ring_simplify. exact Hb1.
  - rewrite !(Qmult_comm keyword_boost).
    apply Qmult_le_compat_r; assumption.
Qed.

Lemma X13_hybrid_score_monotone_witness :
  let doc1 := Sample.doc "rapport" (1 # 10) in
  let doc2 := Sample.doc "budget 2023" (5 # 10) in
  (0 <= 6 # 10)%Q /\ (6 # 10 <= 1)%Q
  /\ (semantic_score doc1 <= semantic_score doc2)%Q
  /\ (calculate_keyword_score (content doc1) ["budget"]
      <= calculate_keyword_score (content doc2) ["budget"])%Q
  /\ (hybrid_key (score_doc ["budget"] (6 # 10) doc1)
      <= hybrid_key (score_doc ["budget"] (6 # 10) doc2))%Q.
Proof.
  intros doc1 doc2.
  assert (H0 : (0 <= 6 # 10)%Q) by discriminate.
  assert (H1 : (6 # 10 <= 1)%Q) by discriminate.
  assert (Hs : (semantic_score doc1 <= semantic_score doc2)%Q)
    by discriminate.
  assert (Hk : (calculate_keyword_score (content doc1) ["budget"]
                <= calculate_keyword_score (content doc2) ["budget"])%Q)
    by (vm_compute; discriminate).
  repeat (split; [ assumption | ]).
  exact (X13_hybrid_score_monotone ["budget"] (6 # 10) doc1 doc2 H0 H1 Hs Hk).
Defined.
End HybridOrder.

(** ** More on the reranker and the orchestrator *)

Section RerankFacts.
Import HybridSearch Reranker RagEngine Notions.

Lemma set_scores_length (documents : list Doc) (scores : list Q) :
  List.length (set_scores documents scores) = List.length documents.
Proof.
  revert scores. induction documents as [ | doc documents IH ];
    intros [ | score scores ]; try reflexivity.
  simpl. now rewrite IH.
Qed.

Lemma slice_to_length_le_list {A : Type} (l : list A) (k : Z) :
  (List.length (Py.slice_to l k) <= List.length l)%nat.
Proof.
  unfold Py.slice_to. destruct (0 <=? k); rewrite length_firstn; lia.
Qed.

Lemma rerank_result_length_le (predict : CrossEncoder) (query : string)
  (documents : list Doc) (top_k : Z) :
  (List.length (Spec.rerank_result predict query documents top_k)
   <= List.length documents)%nat.
Proof.
  unfold Spec.rerank_result, rerank_try, value. cbn [fst].
  destruct (predict _) as [scores | ];
    [ destruct (forallb _ _); [ destruct (log_raises _) | ] | ].
  - etransitivity; [ apply slice_to_length_le_list | ].
    now rewrite sort_desc_length, set_scores_length.
  - etransitivity; [ apply slice_to_length_le_list | ].
    now rewrite sort_desc_length, set_scores_length.
  - etransitivity; [ apply slice_to_length_le_list | ].
    now rewrite set_scores_length.
  - apply slice_to_length_le_list.
Qed.

Lemma rerank_value (self : ReRanker) (query : string) (documents : list Doc)
  (top_k : Z) :
  value (rerank self query documents top_k)
  = (self,
     match model self, documents with
     | None, _ | _, [] => Py.slice_to documents top_k
     | Some predict, _ => Spec.rerank_result predict query documents top_k
     end).
Proof.
  destruct (model self) as [predict | ] eqn:Hm;
    [ | now rewrite rerank_without_model ].
  destruct documents as [ | doc documents ].
  - unfold rerank. now rewrite Hm.
  - now rewrite (rerank_with_model self predict).
Qed.

(** X14.  In every state - model loaded or not, inference succeeding or
    failing - [rerank] returns at most [top_k] documents for a non-negative
    [top_k], never more documents than it was given, and leaves the
    reranker as it was. *)
Theorem X14_rerank_at_most_top_k (self : ReRanker) (query : string)
  (documents : list Doc) (top_k : Z) :
  0 <= top_k ->
  Z.of_nat (List.length (snd (value (rerank self query documents top_k))))
  <= top_k
  /\ (List.length (snd (value (rerank self query documents top_k)))
      <= List.length documents)%nat
  /\ fst (value (rerank self query documents top_k)) = self.
Proof.
  intros Hk. rewrite rerank_value. cbn [fst snd].
  split; [ | split; [ | reflexivity ] ].
  - destruct (model self) as [predict | ];
      [ destruct documents | ];
      try (now apply slice_to_length_le).
    now apply rerank_result_length.
  - destruct (model self) as [predict | ];
      [ destruct documents | ];
      try apply slice_to_length_le_list.
    apply rerank_result_length_le.
Qed.

Lemma X14_rerank_at_most_top_k_witness :
  let self := mkReRanker (Some Sample.by_length) in
  0 <= 1
  /\ Z.of_nat (List.length
                 (snd (value (rerank self "budget" Sample.corpus 1)))) <= 1
  /\ (List.length (snd (value (rerank self "budget" Sample.corpus 1)))
      <= List.length Sample.corpus)%nat
  /\ fst (value (rerank self "budget" Sample.corpus 1)) = self.
Proof.
  intros self. split; [ lia | ].
  apply (X14_rerank_at_most_top_k self "budget" Sample.corpus 1). lia.
Defined.

Lemma set_scores_all_scored (documents : list Doc) (scores : list Q) :
  (List.length documents <= List.length scores)%nat ->
  forallb has_rerank_score (set_scores documents scores) = true
  /\ map rerank_score (set_scores documents scores)
     = map Some (firstn (List.length documents) scores).
Proof.
  revert scores. induction documents as [ | doc documents IH ];
    intros scores Hlen; [ now split | ].
  destruct scores as [ | score scores ]; [ simpl in Hlen; lia | ].
  simpl in Hlen. destruct (IH scores ltac:(lia)) as [Hall Hmap].
  split; simpl; [ exact Hall | now rewrite Hmap ].
Qed.

(** X15.  When the model is loaded and inference returns a score for every
    document, [rerank] gives each document the score at its position, ranks
    the documents by that score - non-increasing, equal scores in the order
    given - and returns the head of the ranking; nothing but the rerank
    score of a document changes. *)
Theorem X15_rerank_success (self : ReRanker) (predict : CrossEncoder)
  (query : string) (doc : Doc) (documents : list Doc) (scores : list Q)
  (top_k : Z) :
  model self = Some predict ->
  predict (Spec.pairs_of query (doc :: documents)) = Some scores ->
  (List.length (doc :: documents) <= List.length scores)%nat ->
  let scored := set_scores (doc :: documents) scores in
  snd (value (rerank self query (doc :: documents) top_k))
  = Py.slice_to (sort_desc rerank_key scored) top_k
  /\ Spec.stable_ranking rerank_key scored (sort_desc rerank_key scored)
  /\ map rerank_score scored
     = map Some (firstn (List.length (doc :: documents)) scores)
  /\ map Spec.clear_rerank_score scored
     = map Spec.clear_rerank_score (doc :: documents).
Proof.
  intros Hm Hp Hlen scored.
  destruct (set_scores_all_scored (doc :: documents) scores Hlen)
    as [Hall Hmap].
  split; [ | split; [ apply sort_desc_stable_ranking | split ] ].
  - rewrite (rerank_with_model self predict) by exact Hm.
    unfold value, Spec.rerank_result, rerank_try, value. cbn [fst snd].
    unfold Spec.pairs_of in Hp. rewrite Hp. fold scored.
    unfold scored at 1. rewrite Hall.
    now destruct (log_raises (sort_desc rerank_key scored)).
  - exact Hmap.
  - apply clear_set_scores.
Qed.

Lemma X15_rerank_success_witness :
  let self := mkReRanker (Some Sample.by_length) in
  let doc := Sample.doc "le chat" (9 # 10) in
  let documents := [Sample.doc "budget 2023" (1 # 10)] in
  let scores := [7%Q; 11%Q] in
  let scored := set_scores (doc :: documents) scores in
  model self = Some Sample.by_length
  /\ Sample.by_length (Spec.pairs_of "budget" (doc :: documents)) = Some scores
  /\ (List.length (doc :: documents) <= List.length scores)%nat
  /\ snd (value (rerank self "budget" (doc :: documents) 1))
     = Py.slice_to (sort_desc rerank_key scored) 1
  /\ Spec.stable_ranking rerank_key scored (sort_desc rerank_key scored)
  /\ map rerank_score scored
     = map Some (firstn (List.length (doc :: documents)) scores)
  /\ map Spec.clear_rerank_score scored
     = map Spec.clear_rerank_score (doc :: documents).
Proof.
  intros self doc documents scores scored.
  assert (Hm : model self = Some Sample.by_length) by reflexivity.
  assert (Hp : Sample.by_length (Spec.pairs_of "budget" (doc :: documents))
               = Some scores) by reflexivity.
  assert (Hlen : (List.length (doc :: documents) <= List.length scores)%nat)
    by (simpl; lia).
  repeat (split; [ assumption | ]).
  exact (X15_rerank_success self Sample.by_length "budget" doc documents
           scores 1 Hm Hp Hlen).
Defined.

(** Without a model, or without documents, [rerank] does not call the
    cross-encoder: it returns the documents it was given, in their order,
    cut to [top_k]. *)
Lemma rerank_skipped (self : ReRanker) (query : string)
  (documents : list Doc) (top_k : Z) :
  model self = None \/ documents = [] ->
  rerank self query documents top_k
  = ((self, Py.slice_to documents top_k), []).
Proof.
  intros [Hm | ->].
  - now rewrite rerank_without_model.
  - unfold rerank. now destruct (model self).
Qed.
End RerankFacts.

Section PairFacts.
Import HybridSearch Reranker RagEngine Notions.

Lemma substring_prefix (n : nat) (s : string) :
  String.prefix (String.substring 0 n s) s = true
  /\ String.length (String.substring 0 n s) = Nat.min n (String.length s).
Proof.
  revert n. induction s as [ | c s IH ]; intros [ | n ]; simpl;
    try (split; reflexivity).
  destruct (IH n) as [Hp Hl]. rewrite Hp, Hl.
  destruct (ascii_dec c c) as [_ | C]; [ now split | congruence ].
Qed.

(** X16.  When [rerank] calls the cross-encoder it makes one call, with one
    pair per document in the order of the documents; each pair holds the
    query and the first 512 characters of the document's content, the whole
    content when it is shorter. *)
Theorem X16_pairs_sent_to_model (self : ReRanker) (predict : CrossEncoder)
  (query : string) (doc : Doc) (documents : list Doc) (top_k : Z) :
  model self = Some predict ->
  calls (rerank self query (doc :: documents) top_k)
  = [Predict (Spec.pairs_of query (doc :: documents))]
  /\ Forall2
       (fun d pair =>
          fst pair = query
          /\ String.prefix (snd pair) (content d) = true
          /\ String.length (snd pair)
             = Nat.min 512 (String.length (content d)))
       (doc :: documents) (Spec.pairs_of query (doc :: documents)).
Proof.
  intros Hm. split.
  - now rewrite (rerank_with_model self predict).
  - unfold Spec.pairs_of, Py.str_slice_to.
    induction (doc :: documents) as [ | d ds IH ]; [ constructor | ].
    cbn [map]. constructor; [ | exact IH ].
    cbn [fst snd]. split; [ reflexivity | apply substring_prefix ].
Qed.

Lemma X16_pairs_sent_to_model_witness :
  let self := mkReRanker (Some Sample.by_length) in
  let doc := Sample.doc "le chat" (9 # 10) in
  model self = Some Sample.by_length
  /\ calls (rerank self "budget" [doc] 1)
     = [Predict (Spec.pairs_of "budget" [doc])]
  /\ Forall2
       (fun d pair =>
          fst pair = "budget"
          /\ String.prefix (snd pair) (content d) = true
          /\ String.length (snd pair)
             = Nat.min 512 (String.length (content d)))
       [doc] (Spec.pairs_of "budget" [doc]).
Proof.
  intros self doc. split; [ reflexivity | ].
  apply (X16_pairs_sent_to_model self Sample.by_length "budget" doc [] 1).
  reflexivity.
Defined.

Lemma in_rerank_result (predict : CrossEncoder) (query : string)
  (documents : list Doc) (top_k : Z) (doc : Doc) :
  In doc (Spec.rerank_result predict query documents top_k) ->
  In (Spec.clear_rerank_score doc) (map Spec.clear_rerank_score documents).
Proof.
  unfold Spec.rerank_result, rerank_try, value. cbn [fst].
  intros Hin. apply (in_map Spec.clear_rerank_score) in Hin.
  destruct (predict _) as [scores | ];
    [ destruct (forallb _ _); [ destruct (log_raises _) | ] | ];
    rewrite slice_to_map in Hin; apply in_slice_to in Hin.
  - rewrite <- (clear_set_scores documents scores).
    eapply Permutation_in; [ | exact Hin ].
    apply Permutation_map, Permutation_sym, sort_desc_perm.
  - rewrite <- (clear_set_scores documents scores).
    eapply Permutation_in; [ | exact Hin ].
    apply Permutation_map, Permutation_sym, sort_desc_perm.
  - now rewrite clear_set_scores in Hin.
  - exact Hin.
Qed.

(** X17.  In every state, each document that [rerank] returns is one of the
    documents it was given, with nothing changed but, at most, its rerank
    score. *)
Theorem X17_rerank_returns_given_documents (self : ReRanker)
  (query : string) (documents : list Doc) (top_k : Z) (doc : Doc) :
  In doc (snd (value (rerank self query documents top_k))) ->
  exists doc0,
    In doc0 documents
    /\ Spec.clear_rerank_score doc = Spec.clear_rerank_score doc0.
Proof.
  rewrite rerank_value. cbn [snd]. intros Hin.
  assert (H : In (Spec.clear_rerank_score doc)
                (map Spec.clear_rerank_score documents)).
  { destruct (model self) as [predict | ];
      [ destruct documents as [ | d ds ] | ].
    - apply in_map. eapply in_slice_to, Hin.
    - eapply in_rerank_result, Hin.
    - apply in_map. eapply in_slice_to, Hin. }
  apply in_map_iff in H. destruct H as [doc0 [Heq Hin0]].
  exists doc0. now split.
Qed.

Lemma X17_rerank_returns_given_documents_witness :
  let self := mkReRanker (Some Sample.by_length) in
  let doc := set_rerank_score (Sample.doc "budget 2023" (1 # 10)) 11 in
  In doc (snd (value (rerank self "budget" Sample.corpus 1)))
  /\ exists doc0,
      In doc0 Sample.corpus
      /\ Spec.clear_rerank_score doc = Spec.clear_rerank_score doc0.
Proof.
  intros self doc.
  assert (Hin : In doc (snd (value (rerank self "budget" Sample.corpus 1))))
    by (left; reflexivity).
  split; [ exact Hin | ].
  exact (X17_rerank_returns_given_documents self "budget" Sample.corpus 1
           doc Hin).
Defined.
End PairFacts.

Section RankFacts.
Import HybridSearch Reranker RagEngine Notions.

Lemma hybrid_of_nil (self : RAGEngine) (question : string) (top_k : Z) :
  similarity_search (vector_store self) question
    (effective_top_k (top_k * 2) * 2) = [] ->
  Spec.hybrid_of self question top_k = [].
Proof.
  intros H. unfold Spec.hybrid_of. rewrite hybrid_search_value, H.
  apply slice_to_nil.
Qed.

(** X18.  When the vector store returns no candidate, the pipeline returns
    an empty result, whatever the state of the reranker: the store was called
    once, the cross-encoder was not called, and the engine is unchanged. *)
Theorem X18_no_candidates_no_result (self : RAGEngine) (question : string)
  (top_k : Z) :
  similarity_search (vector_store self) question
    (effective_top_k (top_k * 2) * 2) = [] ->
  rank self question top_k
  = ((self, []),
     [SimilaritySearch question (effective_top_k (top_k * 2) * 2)]).
Proof.
  intros H. pose proof (hybrid_of_nil self question top_k H) as Hh.
  destruct (model (reranker self)) as [predict | ] eqn:Hm.
  - rewrite (rank_ready self predict) by exact Hm. now rewrite Hh.
  - rewrite rank_unavailable by exact Hm. now rewrite Hh.
Qed.

Lemma X18_no_candidates_no_result_witness :
  let self :=
    mkRAGEngine (mkVectorStore (fun _ _ => []))
      (mkReRanker (Some Sample.by_length)) in
  similarity_search (vector_store self) "budget"
    (effective_top_k (5 * 2) * 2) = []
  /\ rank self "budget" 5
     = ((self, []),
        [SimilaritySearch "budget" (effective_top_k (5 * 2) * 2)]).
Proof.
  intros self. split; [ reflexivity | ].
  apply (X18_no_candidates_no_result self "budget" 5). reflexivity.
Defined.

(** X19.  With the cross-encoder loaded and a non-negative [top_k], the
    pipeline returns at most [top_k] documents, whether the rerank step
    succeeded or raised, each of them a document of the hybrid stage with
    at most its rerank score changed. *)
Theorem X19_ready_result_bounded (self : RAGEngine) (predict : CrossEncoder)
  (question : string) (top_k : Z) :
  model (reranker self) = Some predict ->
  0 <= top_k ->
  Z.of_nat (List.length (ranked self question top_k)) <= top_k
  /\ forall doc, In doc (ranked self question top_k) ->
       In (Spec.clear_rerank_score doc)
         (map Spec.clear_rerank_score (Spec.hybrid_of self question top_k)).
Proof.
  intros Hm Hk. unfold ranked.
  rewrite (rank_ready self predict) by exact Hm.
  destruct (Spec.hybrid_of self question top_k) as [ | d ds ].
  - split; [ simpl; exact Hk | intros doc [] ].
  - unfold value. cbn [fst snd]. split.
    + now apply rerank_result_length.
    + intros doc. apply in_rerank_result.
Qed.

Lemma X19_ready_result_bounded_witness :
  model (reranker Sample.ready) = Some Sample.by_length
  /\ 0 <= 1
  /\ Z.of_nat (List.length (ranked Sample.ready "budget" 1)) <= 1
  /\ forall doc, In doc (ranked Sample.ready "budget" 1) ->
       In (Spec.clear_rerank_score doc)
         (map Spec.clear_rerank_score (Spec.hybrid_of Sample.ready "budget" 1)).
Proof.
  split; [ reflexivity | split; [ lia | ] ].
  apply (X19_ready_result_bounded Sample.ready Sample.by_length "budget" 1);
    [ reflexivity | lia ].
Defined.

Lemma rerank_result_sorted (predict : CrossEncoder) (query : string)
  (documents : list Doc) (top_k : Z) :
  ~ Spec.rerank_raised predict query documents top_k ->
  StronglySorted (fun a b => (rerank_key b <= rerank_key a)%Q)
    (Spec.rerank_result predict query documents top_k)
  /\ Forall (fun doc => rerank_score doc <> None)
       (Spec.rerank_result predict query documents top_k).
Proof.
  unfold Spec.rerank_raised, Spec.rerank_result, rerank_try, value.
  cbn [fst snd].
  destruct (predict _) as [scores | ]; [ | intros H; now contradiction H ].
  destruct (forallb has_rerank_score (set_scores documents scores)) eqn:E;
    cbn [fst snd]; [ | intros H; now contradiction H ].
  destruct (log_raises (sort_desc rerank_key (set_scores documents scores)));
    cbn [fst snd]; [ intros H; now contradiction H | intros _ ].
  split.
  - apply slice_to_sorted, sort_desc_sorted.
  - apply Forall_forall. intros doc Hin. apply in_slice_to in Hin.
    eapply Permutation_in in Hin;
      [ | apply Permutation_sym, sort_desc_perm ].
    rewrite forallb_forall in E. specialize (E doc Hin).
    unfold has_rerank_score in E.
    destruct (rerank_score doc); [ discriminate | discriminate E ].
Qed.

(** X20.  With the cross-encoder loaded, when the rerank step does not
    raise, the pipeline's result is in non-increasing order of rerank score
    and every document in it carries a rerank score. *)
Theorem X20_ready_result_sorted_by_rerank_score (self : RAGEngine)
  (predict : CrossEncoder) (question : string) (top_k : Z) :
  model (reranker self) = Some predict ->
  ~ Spec.rerank_raised predict question (Spec.hybrid_of self question top_k)
      top_k ->
  StronglySorted (fun a b => (rerank_key b <= rerank_key a)%Q)
    (ranked self question top_k)
  /\ Forall (fun doc => rerank_score doc <> None) (ranked self question top_k).
Proof.
  intros Hm Hok. unfold ranked.
  rewrite (rank_ready self predict) by exact Hm.
  destruct (Spec.hybrid_of self question top_k) as [ | d ds ].
  - split; constructor.
  - unfold value. cbn [fst snd]. now apply rerank_result_sorted.
Qed.

Lemma X20_ready_result_sorted_by_rerank_score_witness :
  model (reranker Sample.ready) = Some Sample.by_length
  /\ ~ Spec.rerank_raised Sample.by_length "budget"
         (Spec.hybrid_of Sample.ready "budget" 2) 2
  /\ StronglySorted (fun a b => (rerank_key b <= rerank_key a)%Q)
       (ranked Sample.ready "budget" 2)
  /\ Forall (fun doc => rerank_score doc <> None)
       (ranked Sample.ready "budget" 2).
Proof.
  assert (Hok : ~ Spec.rerank_raised Sample.by_length "budget"
                    (Spec.hybrid_of Sample.ready "budget" 2) 2)
    by (intros H; vm_compute in H; discriminate H).
  split; [ reflexivity | split; [ exact Hok | ] ].
  exact (X20_ready_result_sorted_by_rerank_score Sample.ready Sample.by_length
           "budget" 2 eq_refl Hok).
Defined.

(** X21.  With the cross-encoder not loaded, the pipeline returns the output
    of the hybrid stage as it is - in non-increasing order of hybrid score -
    and calls nothing but the vector store. *)
Theorem X21_unavailable_result_is_hybrid_output (self : RAGEngine)
  (question : string) (top_k : Z) :
  model (reranker self) = None ->
  rank self question top_k
  = ((self,
      value (hybrid_search (vector_store self) question (top_k * 2) (6 # 10))),
     [SimilaritySearch question (effective_top_k (top_k * 2) * 2)])
  /\ StronglySorted (fun a b => (hybrid_key b <= hybrid_key a)%Q)
       (ranked self question top_k).
Proof.
  intros Hm. unfold ranked. rewrite rank_unavailable by exact Hm.
  split; [ reflexivity | ].
  unfold value at 1. cbn [fst snd]. unfold Spec.hybrid_of.
  rewrite hybrid_search_value.
  apply slice_to_sorted. unfold scored_results. apply sort_desc_sorted.
Qed.

Lemma X21_unavailable_result_is_hybrid_output_witness :
  model (reranker Sample.unavailable) = None
  /\ rank Sample.unavailable "budget" 1
     = ((Sample.unavailable,
         value (hybrid_search (vector_store Sample.unavailable) "budget"
                  (1 * 2) (6 # 10))),
        [SimilaritySearch "budget" (effective_top_k (1 * 2) * 2)])
  /\ StronglySorted (fun a b => (hybrid_key b <= hybrid_key a)%Q)
       (ranked Sample.unavailable "budget" 1).
Proof.
  split; [ reflexivity | ].
  apply (X21_unavailable_result_is_hybrid_output Sample.unavailable
           "budget" 1).
  reflexivity.
Defined.
End RankFacts.

(** ** More on the fallback scan *)

Section CosineFacts.
Import VectorStoreFallback.
Local Open Scope R_scope.

Lemma dot_cons (x y : R) (l1 l2 : list R) :
  Spec.dot (x :: l1) (y :: l2) = x * y + Spec.dot l1 l2.
Proof. reflexivity. Qed.

Lemma dot_comm (l1 l2 : list R) : Spec.dot l1 l2 = Spec.dot l2 l1.
Proof.
  revert l2. induction l1 as [ | x l1 IH ]; intros [ | y l2 ];
    try reflexivity.
  rewrite !dot_cons, IH. lra.
Qed.

Lemma cosine_comm (l1 l2 : list R) : Spec.cosine l1 l2 = Spec.cosine l2 l1.
Proof.
  unfold Spec.cosine. rewrite (dot_comm l1 l2).
  destruct (Req_dec_T (Spec.norm l1) 0), (Req_dec_T (Spec.norm l2) 0);
    try reflexivity.
  f_equal. ring.
Qed.

(** X24.  The similarity of two lists of numbers does not depend on the
    order of its two arguments. *)
Theorem X24_cosine_symmetric
  (json_loads : string -> option Value) (float_of_str : string -> option R)
  (l1 l2 : list R) :
  cosine_similarity json_loads float_of_str (Spec.vector l1) (Spec.vector l2)
  = cosine_similarity json_loads float_of_str (Spec.vector l2)
      (Spec.vector l1).
Proof.
  rewrite !cosine_similarity_vectors. now rewrite cosine_comm.
Qed.
End CosineFacts.

Section FallbackSearchFacts.
Import VectorStoreFallback.
Local Open Scope R_scope.
Variable json_loads : string -> option Value.
Variable float_of_str : string -> option R.

Lemma insert_hit_perm (x : Hit) (l : list Hit) :
  Permutation (x :: l) (insert_hit x l).
Proof.
  induction l as [ | y l IH ]; simpl; [ reflexivity | ].
  destruct (Rle_dec (hit_similarity y) (hit_similarity x)); [ reflexivity | ].
  rewrite perm_swap. now constructor.
Qed.

Lemma sort_hits_perm (l : list Hit) : Permutation l (sort_hits l).
Proof.
  induction l as [ | x l IH ]; simpl; [ constructor | ].
  rewrite <- insert_hit_perm. now constructor.
Qed.

Lemma insert_hit_sorted (x : Hit) (l : list Hit) :
  StronglySorted (fun a b => hit_similarity b <= hit_similarity a) l ->
  StronglySorted (fun a b => hit_similarity b <= hit_similarity a)
    (insert_hit x l).
Proof.
  induction 1 as [ | y l Hs IH Hy ]; simpl.
  - repeat constructor.
  - destruct (Rle_dec (hit_similarity y) (hit_similarity x)) as [E | E].
    + constructor; [ now constructor | ].
      constructor; [ exact E | ].
      eapply Forall_impl; [ | exact Hy ].
      intros a Ha. simpl in Ha. lra.
    + constructor; [ exact IH | ].
      eapply Permutation_Forall; [ apply insert_hit_perm | ].
      constructor; [ lra | exact Hy ].
Qed.

Lemma sort_hits_sorted (l : list Hit) :
  StronglySorted (fun a b => hit_similarity b <= hit_similarity a)
    (sort_hits l).
Proof.
  induction l as [ | x l IH ]; simpl;
    [ constructor | now apply insert_hit_sorted ].
Qed.

(** What the loop appends: one hit per row with an embedding, in the order
    of the rows. *)
Lemma scan_hits (query_embedding : Value) (rows : list Row)
  (hits : list Hit) :
  scan json_loads float_of_str query_embedding rows = Some hits ->
  Forall2
    (fun row hit =>
       hit_id hit = row_id row
       /\ hit_content hit = row_content row
       /\ hit_metadata hit = row_metadata row
       /\ cosine_similarity json_loads float_of_str query_embedding
            (embedding row) = Some (hit_similarity hit))
    (filter (fun row => truthy (embedding row)) rows) hits.
Proof.
  revert hits. induction rows as [ | row rows IH ]; intros hits H.
  - injection H as <-. constructor.
  - cbn [scan filter] in *.
    destruct (truthy (embedding row)); [ | now apply IH ].
    destruct (cosine_similarity json_loads float_of_str query_embedding
                (embedding row)) as [s | ] eqn:Hc; [ | discriminate H ].
    destruct (scan json_loads float_of_str query_embedding rows)
      as [rest | ]; [ | discriminate H ].
    injection H as <-. constructor; [ | now apply IH ].
    cbn. repeat split; try reflexivity. exact Hc.
Qed.

Lemma forall2_in_r {A B : Type} (P : A -> B -> Prop) (l1 : list A)
  (l2 : list B) (y : B) :
  Forall2 P l1 l2 -> In y l2 -> exists x, In x l1 /\ P x y.
Proof.
  induction 1 as [ | x y' l1 l2 Hxy Hrest IH ]; intros Hin; [ contradiction | ].
  destruct Hin as [<- | Hin].
  - exists x. split; [ now left | exact Hxy ].
  - destruct (IH Hin) as [x' [Hx' Hp]]. exists x'. split; [ now right | exact Hp ].
Qed.

Lemma filter_length_le {A : Type} (f : A -> bool) (l : list A) :
  (List.length (filter f l) <= List.length l)%nat.
Proof.
  induction l as [ | x l IH ]; simpl; [ lia | ].
  destruct (f x); simpl; lia.
Qed.

(** X25.  When the fallback search returns, its hits are in non-increasing
    order of similarity, there are at most [top_k] of them for a
    non-negative [top_k] and at most 100, and each hit is one of the first
    100 rows of the table that has an embedding, with the id, content and
    metadata of that row and its similarity to the query embedding. *)
Theorem X25_fallback_search_result (query_embedding : Value)
  (table : list Row) (top_k : Z) (result : list Hit) :
  fallback_search json_loads float_of_str query_embedding table top_k
  = Some result ->
  (0 <= top_k)%Z ->
  StronglySorted (fun a b => hit_similarity b <= hit_similarity a) result
  /\ (Z.of_nat (List.length result) <= top_k)%Z
  /\ (List.length result <= 100)%nat
  /\ forall hit, In hit result ->
       exists row,
         In row (firstn 100 table)
         /\ truthy (embedding row) = true
         /\ hit_id hit = row_id row
         /\ hit_content hit = row_content row
         /\ hit_metadata hit = row_metadata row
         /\ cosine_similarity json_loads float_of_str query_embedding
              (embedding row) = Some (hit_similarity hit).
Proof.
  unfold fallback_search. intros H Hk.
  assert (Hlen : (List.length (firstn 100 table) <= 100)%nat)
    by (rewrite length_firstn; lia).
  destruct (firstn 100 table) as [ | row rows ] eqn:Hrows.
  - injection H as <-. repeat split; try constructor; simpl; try lia.
  - rewrite <- Hrows in *. clear Hrows row rows.
    destruct (scan json_loads float_of_str query_embedding (firstn 100 table))
      as [hits | ] eqn:Hscan; [ | discriminate H ].
    injection H as <-. pose proof (scan_hits _ _ _ Hscan) as Hhits.
    split; [ apply slice_to_sorted, sort_hits_sorted | ].
    split; [ now apply slice_to_length_le | ].
    split.
    + etransitivity; [ apply slice_to_length_le_list | ].
      rewrite <- (Permutation_length (sort_hits_perm hits)).
      rewrite <- (Forall2_length Hhits).
      etransitivity; [ apply filter_length_le | exact Hlen ].
    + intros hit Hin. apply in_slice_to in Hin.
      eapply Permutation_in in Hin;
        [ | apply Permutation_sym, sort_hits_perm ].
      destruct (forall2_in_r _ _ _ _ Hhits Hin) as [row [Hrow Hp]].
      apply filter_In in Hrow. destruct Hrow as [Hrow Ht].
      exists row. split; [ exact Hrow | split; [ exact Ht | exact Hp ] ].
Qed.

End FallbackSearchFacts.

Section FallbackSearchExamples.
Import VectorStoreFallback.
Local Open Scope R_scope.

Lemma X25_fallback_search_result_witness :
  let table := [row_of 1 (VNum 5); row_of 2 VNone] in
  let result := [Spec.hit_of (row_of 1 (VNum 5)) 0] in
  fallback_search no_json no_float (Spec.vector [1; 0]) table 3 = Some result
  /\ (0 <= 3)%Z
  /\ StronglySorted (fun a b => hit_similarity b <= hit_similarity a) result
  /\ (Z.of_nat (List.length result) <= 3)%Z
  /\ (List.length result <= 100)%nat
  /\ forall hit, In hit result ->
       exists row,
         In row (firstn 100 table)
         /\ truthy (embedding row) = true
         /\ hit_id hit = row_id row
         /\ hit_content hit = row_content row
         /\ hit_metadata hit = row_metadata row
         /\ cosine_similarity no_json no_float (Spec.vector [1; 0])
              (embedding row) = Some (hit_similarity hit).
Proof.
  intros table result.
  assert (H : fallback_search no_json no_float (Spec.vector [1; 0]) table 3
              = Some result).
  { unfold fallback_search, table. cbn [firstn scan row_of embedding truthy].
    destruct (Req_dec_T 5 0) as [C | _]; [ lra | ]. reflexivity. }
  assert (Hk : (0 <= 3)%Z) by lia.
  split; [ exact H | split; [ exact Hk | ] ].
  exact (X25_fallback_search_result no_json no_float (Spec.vector [1; 0])
           table 3 result H Hk).
Defined.

End FallbackSearchExamples.

(** ** Indexing: [add_documents] *)

Section IndexingFacts.
Import VectorStoreIndexing.
Context {Embedding : Type}.
Variable create_embedding : string -> option Embedding.
Variable insert : list (Record_ Embedding) -> bool.

Lemma all_but_last_cons {A : Type} (P : list A -> Prop) (b : list A)
  (bs : list (list A)) :
  P b ->
  (forall front last, bs = front ++ [last] -> Forall P front) ->
  bs <> [] ->
  forall front last, b :: bs = front ++ [last] -> Forall P front.
Proof.
  intros Hb Hbs Hne front last Heq.
  destruct front as [ | f front ].
  - simpl in Heq. injection Heq as _ Hnil. contradiction.
  - simpl in Heq. injection Heq as <- Heq.
    constructor; [ exact Hb | now apply (Hbs front last) ].
Qed.

Lemma add_loop_success (documents : list InputDoc)
  (current_batch : list (Record_ Embedding)) (n s : Z) :
  (List.length current_batch < batch_size)%nat ->
  outcome (add_loop create_embedding insert documents current_batch n s) = Returned true ->
  exists records,
    Forall2 (record_of create_embedding) (filter not_blank documents) records
    /\ List.concat (batches (events (add_loop create_embedding insert documents current_batch n s)))
       = current_batch ++ records
    /\ Forall (fun b => (1 <= List.length b <= batch_size)%nat)
         (batches (events (add_loop create_embedding insert documents current_batch n s)))
    /\ (forall front last,
          batches (events (add_loop create_embedding insert documents current_batch n s))
          = front ++ [last] ->
          Forall (fun b => List.length b = batch_size) front)
    /\ total_inserted (add_loop create_embedding insert documents current_batch n s)
       = n + Z.of_nat (List.length current_batch)
           + Z.of_nat (List.length records)
    /\ skipped (add_loop create_embedding insert documents current_batch n s)
       = s + Z.of_nat (List.length documents)
           - Z.of_nat (List.length records).
Proof.
  revert current_batch n s.
  induction documents as [ | doc documents IH ]; intros cur n s Hcur Hok.
  - exists []. cbn [add_loop filter] in *.
    destruct cur as [ | r cur ].
    + refine (conj _ (conj _ (conj _ (conj _ (conj _ _)))));
        cbn; try constructor; try lia.
      intros [ | f front ] last H; discriminate H.
    + destruct (insert (r :: cur)); [ | discriminate Hok ].
      refine (conj _ (conj _ (conj _ (conj _ (conj _ _)))));
        cbn [emit outcome events total_inserted skipped batches List.concat].
      * constructor.
      * now rewrite !app_nil_r.
      * constructor; [ split; [ simpl; lia | lia ] | constructor ].
      * intros [ | f front ] last H; [ constructor | ].
        injection H as _ H. destruct front; discriminate H.
      * cbn [List.length]. lia.
      * cbn [List.length]. lia.
  - cbn [add_loop filter] in *. unfold not_blank at 1.
    destruct (is_blank doc) eqn:Hblank; cbn [negb].
    + destruct (IH cur n (s + 1) Hcur Hok)
        as [records [Hrec [Hcat [Hsize [Hfull [Htot Hskip]]]]]].
      exists records.
      refine (conj Hrec (conj Hcat (conj Hsize (conj Hfull (conj Htot _))))).
      rewrite Hskip. cbn [List.length]. lia.
    + destruct (doc_content doc) as [text | ] eqn:Hc; [ | discriminate Hok ].
      destruct (create_embedding text) as [e | ] eqn:He;
        [ | discriminate Hok ].
      destruct (doc_metadata doc) as [m | ] eqn:Hm; [ | discriminate Hok ].
      set (rec := mkRecord text m e) in *.
      assert (Hrec0 : record_of create_embedding doc rec)
        by (repeat split; assumption).
      destruct (batch_size <=? List.length (cur ++ [rec]))%nat eqn:Hfullb.
      * apply Nat.leb_le in Hfullb.
        assert (Hlen : List.length (cur ++ [rec]) = batch_size)
          by (rewrite length_app in *; simpl in *; lia).
        destruct (insert (cur ++ [rec])); [ | discriminate Hok ].
        cbn [emit outcome events total_inserted skipped batches] in *.
        destruct (IH [] (n + Z.of_nat (List.length (cur ++ [rec]))) s)
          as [records [Hrec [Hcat [Hsize [Hfull [Htot Hskip]]]]]];
          [ unfold batch_size; simpl; lia | exact Hok | ].
        exists (rec :: records). split; [ now constructor | ].
        split; [ cbn [List.concat]; rewrite Hcat, <- app_assoc; reflexivity | ].
        split; [ constructor; [ lia | exact Hsize ] | ].
        split.
        -- intros front last Heq.
           destruct (batches (events (add_loop create_embedding insert documents []
                        (n + Z.of_nat (List.length (cur ++ [rec]))) s)))
             as [ | b bs ] eqn:Hb.
           ++ destruct front as [ | f front ]; [ constructor | ].
              injection Heq as _ Heq. destruct front; discriminate Heq.
           ++ eapply (all_but_last_cons
                        (fun b => List.length b = batch_size));
                [ exact Hlen | exact Hfull | discriminate | exact Heq ].
        -- rewrite Htot, Hskip. rewrite length_app. cbn [List.length].
           split; lia.
      * apply Nat.leb_gt in Hfullb.
        cbn [emit outcome events total_inserted skipped batches] in *.
        destruct (IH (cur ++ [rec]) n s Hfullb Hok)
          as [records [Hrec [Hcat [Hsize [Hfull [Htot Hskip]]]]]].
        exists (rec :: records). split; [ now constructor | ].
        split; [ rewrite Hcat, <- app_assoc; reflexivity | ].
        split; [ exact Hsize | ]. split; [ exact Hfull | ].
        rewrite Htot, Hskip. rewrite length_app. cbn [List.length].
        split; lia.
Qed.

(** X27.  When [add_documents] returns [True], the batches it inserted,
    put end to end, are the records of the documents that are not blank, in
    the order of the documents, each with its content, its metadata and the
    embedding of its content; every batch holds between 1 and 50 records and
    every batch but the last holds exactly 50; the counters it logs are the
    number of records inserted and the number of blank documents skipped. *)
Theorem X27_add_documents_success (documents : list InputDoc) :
  outcome (add_documents create_embedding insert documents) = Returned true ->
  let run := add_documents create_embedding insert documents in
  exists records,
    Forall2 (record_of create_embedding) (filter not_blank documents) records
    /\ List.concat (batches (events run)) = records
    /\ Forall (fun b => (1 <= List.length b <= 50)%nat) (batches (events run))
    /\ (forall front last,
          batches (events run) = front ++ [last] ->
          Forall (fun b => List.length b = 50%nat) front)
    /\ total_inserted run = Z.of_nat (List.length records)
    /\ skipped run
       = Z.of_nat (List.length documents) - Z.of_nat (List.length records).
Proof.
  intros Hok run. subst run.
  destruct documents as [ | doc documents ]; [ discriminate Hok | ].
  unfold add_documents in *.
  destruct (add_loop_success (doc :: documents) [] 0 0) as
    [records [Hrec [Hcat [Hsize [Hfull [Htot Hskip]]]]]];
    [ unfold batch_size; simpl; lia | exact Hok | ].
  exists records.
  refine (conj Hrec (conj Hcat (conj Hsize (conj Hfull (conj _ _))))).
  - rewrite Htot. simpl. lia.
  - rewrite Hskip. lia.
Qed.

Lemma add_loop_failure (documents : list InputDoc)
  (current_batch : list (Record_ Embedding)) (n s : Z) :
  outcome (add_loop create_embedding insert documents current_batch n s)
  = Returned false ->
  exists pre batch,
    events (add_loop create_embedding insert documents current_batch n s)
    = pre ++ [Insert batch]
    /\ insert batch = false
    /\ Forall (fun b => insert b = true) (batches pre).
Proof.
  revert current_batch n s.
  induction documents as [ | doc documents IH ]; intros cur n s Hko;
    cbn [add_loop] in *.
  - destruct cur as [ | r cur ]; [ discriminate Hko | ].
    destruct (insert (r :: cur)) eqn:Hi; [ discriminate Hko | ].
    exists [], (r :: cur). repeat split; [ exact Hi | constructor ].
  - destruct (is_blank doc); [ now apply IH | ].
    destruct (doc_content doc) as [text | ]; [ | discriminate Hko ].
    destruct (create_embedding text) as [e | ]; [ | discriminate Hko ].
    destruct (doc_metadata doc) as [m | ]; [ | discriminate Hko ].
    destruct (batch_size <=? List.length (cur ++ [mkRecord text m e]))%nat.
    + destruct (insert (cur ++ [mkRecord text m e])) eqn:Hi.
      * cbn [emit outcome events] in *.
        destruct (IH _ _ _ Hko) as [pre [batch [Hev [Hb Hpre]]]].
        exists (CreateEmbedding text :: Insert (cur ++ [mkRecord text m e])
                  :: pre), batch.
        rewrite Hev. repeat split; [ exact Hb | ].
        cbn [batches]. now constructor.
      * exists [CreateEmbedding text], (cur ++ [mkRecord text m e]).
        repeat split; [ exact Hi | constructor ].
    + cbn [emit outcome events] in *.
      destruct (IH _ _ _ Hko) as [pre [batch [Hev [Hb Hpre]]]].
      exists (CreateEmbedding text :: pre), batch.
      rewrite Hev. repeat split; assumption.
Qed.

(** X28.  When [add_documents] returns [False] on a non-empty list, the
    last call it made is the insertion of a batch, which failed; every batch
    sent before it was inserted and stays inserted, and nothing is embedded
    or inserted after the failure.  On an empty list it returns [False]
    without any call. *)
Theorem X28_add_documents_stops_at_failed_insert (documents : list InputDoc) :
  outcome (add_documents create_embedding insert documents) = Returned false ->
  (documents = []
   /\ events (add_documents create_embedding insert documents) = [])
  \/ exists pre batch,
       events (add_documents create_embedding insert documents)
       = pre ++ [Insert batch]
       /\ insert batch = false
       /\ Forall (fun b => insert b = true) (batches pre).
Proof.
  intros Hko. destruct documents as [ | doc documents ].
  - left. now split.
  - right. unfold add_documents in *. now apply add_loop_failure.
Qed.

(** The texts embedded so far are the first contents of the documents that
    are not blank. *)
Lemma add_loop_embedded (documents : list InputDoc)
  (current_batch : list (Record_ Embedding)) (n s : Z) :
  exists rest,
    map doc_content (filter not_blank documents)
    = map Some
        (embedded
           (events (add_loop create_embedding insert documents
                      current_batch n s)))
      ++ rest
    /\ (outcome (add_loop create_embedding insert documents current_batch n s)
        = Returned true -> rest = []).
Proof.
  revert current_batch n s.
  induction documents as [ | doc documents IH ]; intros cur n s;
    cbn [add_loop filter].
  - exists []. split; [ | reflexivity ].
    destruct cur; [ reflexivity | ]. now destruct (insert _).
  - unfold not_blank at 1. destruct (is_blank doc) eqn:Hb; cbn [negb].
    + apply IH.
    + destruct (doc_content doc) as [text | ] eqn:Hc.
      2:{ unfold is_blank in Hb. rewrite Hc in Hb. discriminate Hb. }
      cbn [map]. rewrite Hc.
      destruct (create_embedding text) as [e | ].
      2:{ eexists. split; [ reflexivity | discriminate ]. }
      destruct (doc_metadata doc) as [m | ].
      2:{ eexists. split; [ reflexivity | discriminate ]. }
      destruct (batch_size <=? List.length (cur ++ [mkRecord text m e]))%nat.
      * destruct (insert (cur ++ [mkRecord text m e])).
        -- cbn [emit outcome events embedded].
           destruct (IH [] (n + Z.of_nat (List.length
                                            (cur ++ [mkRecord text m e]))) s)
             as [rest [Heq Hrest]].
           exists rest. cbn [map app]. now rewrite Heq.
        -- eexists. split; [ reflexivity | discriminate ].
      * cbn [emit outcome events embedded].
        destruct (IH (cur ++ [mkRecord text m e]) n s) as [rest [Heq Hrest]].
        exists rest. cbn [map app]. now rewrite Heq.
Qed.

(** X29.  The texts that [add_documents] sends to the embedding service are
    the contents of the documents that are not blank, in the order of the
    documents, up to the point where it stops: a document without content,
    or whose content is empty or blank, is never embedded; and when it
    returns [True] every document that is not blank was embedded. *)
Theorem X29_add_documents_embeds_non_blank (documents : list InputDoc) :
  let run := add_documents create_embedding insert documents in
  exists rest,
    map doc_content (filter not_blank documents)
    = map Some (embedded (events run)) ++ rest
    /\ (outcome run = Returned true -> rest = []).
Proof.
  intros run. subst run. destruct documents as [ | doc documents ].
  - exists []. split; [ reflexivity | discriminate ].
  - unfold add_documents. apply add_loop_embedded.
Qed.
End IndexingFacts.

Section IndexingExamples.
Import VectorStoreIndexing.

Lemma X27_add_documents_success_witness :
  let create_embedding := fun text => Some (String.length text) in
  let insert := fun _ : list (Record_ nat) => true in
  let documents :=
    [ mkInputDoc (Some "budget 2023") (Some []);
      mkInputDoc (Some "  ") (Some []);
      mkInputDoc None None ] in
  let run := add_documents create_embedding insert documents in
  outcome run = Returned true
  /\ exists records,
      Forall2 (record_of create_embedding) (filter not_blank documents) records
      /\ List.concat (batches (events run)) = records
      /\ Forall (fun b => (1 <= List.length b <= 50)%nat)
           (batches (events run))
      /\ (forall front last,
            batches (events run) = front ++ [last] ->
            Forall (fun b => List.length b = 50%nat) front)
      /\ total_inserted run = Z.of_nat (List.length records)
      /\ skipped run
         = Z.of_nat (List.length documents) - Z.of_nat (List.length records).
Proof.
  intros create_embedding insert documents run.
  assert (H : outcome run = Returned true) by reflexivity.
  split; [ exact H | ].
  exact (X27_add_documents_success create_embedding insert documents H).
Defined.

Lemma X28_add_documents_stops_at_failed_insert_witness :
  let create_embedding := fun text => Some (String.length text) in
  let insert := fun _ : list (Record_ nat) => false in
  let documents := [ mkInputDoc (Some "budget 2023") (Some []) ] in
  outcome (add_documents create_embedding insert documents) = Returned false
  /\ ((documents = []
       /\ events (add_documents create_embedding insert documents) = [])
      \/ exists pre batch,
           events (add_documents create_embedding insert documents)
           = pre ++ [Insert batch]
           /\ insert batch = false
           /\ Forall (fun b => insert b = true) (batches pre)).
Proof.
  intros create_embedding insert documents.
  assert (H : outcome (add_documents create_embedding insert documents)
              = Returned false) by reflexivity.
  split; [ exact H | ].
  exact (X28_add_documents_stops_at_failed_insert create_embedding insert
           documents H).
Defined.
End IndexingExamples.
